(** * TodoNexus: the sharing and authorization model

    A shallow embedding of
      - supabase/migrations/20250627203650-...sql : the three tables, their
        constraints, the row-level-security policies and the profile trigger;
      - hooks/useTasks.ts : fetchTasks, createTask, updateTask, deleteTask,
        shareTask, run against that schema;
      - components/TaskCard.tsx : handleStatusChange;
      - components/CreateTaskModal.tsx : handleSubmit.

    UUIDs are natural numbers, TEXT columns are strings, a nullable column is
    an [option].  The columns created_at / updated_at (DEFAULT NOW()) carry no
    constraint and no policy reads them; they are left out of the rows.  A
    DATE is a calendar day number: payloads carry dates that are already well
    formed (what the date input of the forms produces) or null. *)

From Stdlib Require Import List String Ascii Bool Arith PeanoNat ZArith Lia.
Import ListNotations.

Local Open Scope string_scope.
Local Open Scope bool_scope.
Local Open Scope nat_scope.

(* ================================================================== *)
(** ** The persisted schema (CREATE TABLE ...)                          *)
(* ================================================================== *)

Module Schema.

Definition UUID := nat.
Definition DATE := nat.

(** public.profiles *)
Record profiles_row := mk_profile {
  p_id         : UUID;            (* UUID PRIMARY KEY REFERENCES auth.users(id) *)
  p_email      : string;          (* TEXT NOT NULL *)
  p_full_name  : option string;   (* TEXT *)
  p_avatar_url : option string    (* TEXT *)
}.

(** public.tasks *)
Record tasks_row := mk_task {
  t_id          : UUID;           (* UUID PRIMARY KEY DEFAULT gen_random_uuid() *)
  t_user_id     : UUID;           (* REFERENCES profiles(id) NOT NULL *)
  t_title       : string;         (* TEXT NOT NULL *)
  t_description : option string;  (* TEXT *)
  t_due_date    : option DATE;    (* DATE *)
  t_priority    : string;         (* TEXT CHECK (priority IN (...)) *)
  t_status      : string          (* TEXT CHECK (status IN (...)) *)
}.

(** public.task_shares *)
Record task_shares_row := mk_share {
  s_id                  : UUID;   (* UUID PRIMARY KEY DEFAULT gen_random_uuid() *)
  s_task_id             : UUID;   (* REFERENCES tasks(id) ON DELETE CASCADE NOT NULL *)
  s_shared_by_user_id   : UUID;   (* REFERENCES profiles(id) NOT NULL *)
  s_shared_with_user_id : UUID;   (* REFERENCES profiles(id) NOT NULL *)
  s_permission          : string  (* TEXT CHECK (permission IN ('view','edit')) *)
}.

(** The database: auth.users (only its key matters here) and the three
    public tables, each in storage order. *)
Record Database := mk_db {
  auth_users  : list UUID;
  profiles    : list profiles_row;
  tasks       : list tasks_row;
  task_shares : list task_shares_row
}.

Definition empty_db : Database := mk_db [] [] [] [].

(** CHECK (priority IN ('low', 'medium', 'high')) *)
Definition check_priority (p : string) : bool :=
  String.eqb p "low" || String.eqb p "medium" || String.eqb p "high".

(** CHECK (status IN ('pending', 'in-progress', 'completed')) *)
Definition check_status (s : string) : bool :=
  String.eqb s "pending" || String.eqb s "in-progress" || String.eqb s "completed".

(** CHECK (permission IN ('view', 'edit')) *)
Definition check_permission (p : string) : bool :=
  String.eqb p "view" || String.eqb p "edit".

(** What the storage layer answers when it refuses a statement. *)
Inductive pg_error :=
| RlsViolation          (* new row violates row-level security policy *)
| NotNullViolation
| CheckViolation
| UniqueViolation
| ForeignKeyViolation
| NoRows                (* .single() on an empty result *)
| MultipleRows          (* .single() on more than one row *)
| ProviderUnavailable.  (* the backend could not be reached *)

Inductive result (A : Type) :=
| Ok  (a : A)
| Err (e : pg_error).
Arguments Ok {A} a.
Arguments Err {A} e.

Definition is_ok {A} (r : result A) : bool :=
  match r with Ok _ => true | Err _ => false end.

(** UNIQUE(task_id, shared_with_user_id), as a property of a table state. *)
Definition share_key (s : task_shares_row) : UUID * UUID :=
  (s_task_id s, s_shared_with_user_id s).

Definition same_share_key (T R : UUID) (s : task_shares_row) : bool :=
  (s_task_id s =? T) && (s_shared_with_user_id s =? R).

(** The task_shares rows of the pair (task T, recipient R). *)
Definition shares_of_pair (db : Database) (T R : UUID) : list task_shares_row :=
  filter (same_share_key T R) (task_shares db).

(** The task_shares rows that reference task T. *)
Definition shares_of_task (db : Database) (T : UUID) : list task_shares_row :=
  filter (fun s => s_task_id s =? T) (task_shares db).

Definition has_profile (db : Database) (id : UUID) : bool :=
  existsb (fun p => p_id p =? id) (profiles db).

Definition has_task (db : Database) (id : UUID) : bool :=
  existsb (fun t => t_id t =? id) (tasks db).

End Schema.
Export Schema.

(* ================================================================== *)
(** ** Row-level security (CREATE POLICY ...)                           *)
(* ================================================================== *)

Module Policy.

(** [auth.uid() = x].  auth.uid() is NULL without an authenticated
    identity, and NULL = x is not true. *)
Definition uid_is (auth_uid : option UUID) (x : UUID) : bool :=
  match auth_uid with
  | Some u => u =? x
  | None => false
  end.

Section WithCaller.
Variable auth_uid : option UUID.

(** "Users can view all profiles": FOR SELECT USING (true) *)
Definition Users_can_view_all_profiles (_ : profiles_row) : bool := true.

(** "Users can update own profile": FOR UPDATE USING (auth.uid() = id) *)
Definition Users_can_update_own_profile (p : profiles_row) : bool :=
  uid_is auth_uid (p_id p).

(** "Users can insert own profile": FOR INSERT WITH CHECK (auth.uid() = id);
    the check reads the id column of the new row only. *)
Definition Users_can_insert_own_profile (new_id : UUID) : bool :=
  uid_is auth_uid new_id.

(** "Users can view task shares for their tasks":
    USING (auth.uid() = shared_by_user_id OR auth.uid() = shared_with_user_id) *)
Definition Users_can_view_task_shares_for_their_tasks
           (s : task_shares_row) : bool :=
  uid_is auth_uid (s_shared_by_user_id s)
  || uid_is auth_uid (s_shared_with_user_id s).

(** The rows of task_shares a sub-select inside a policy, or an embedded
    select, can see: it runs as the caller, so the SELECT policy of
    task_shares applies to it. *)
Definition visible_task_shares (db : Database) : list task_shares_row :=
  filter Users_can_view_task_shares_for_their_tasks (task_shares db).

(** "Users can view own tasks": FOR SELECT USING (auth.uid() = user_id) *)
Definition Users_can_view_own_tasks (t : tasks_row) : bool :=
  uid_is auth_uid (t_user_id t).

(** "Users can view shared tasks": FOR SELECT USING (EXISTS (SELECT 1 FROM
    task_shares WHERE task_shares.task_id = tasks.id
    AND task_shares.shared_with_user_id = auth.uid())) *)
Definition Users_can_view_shared_tasks (db : Database) (t : tasks_row) : bool :=
  existsb (fun s => (s_task_id s =? t_id t)
                    && uid_is auth_uid (s_shared_with_user_id s))
          (visible_task_shares db).

(** Permissive policies of one command are OR-ed. *)
Definition tasks_select_policy (db : Database) (t : tasks_row) : bool :=
  Users_can_view_own_tasks t || Users_can_view_shared_tasks db t.

(** "Users can insert own tasks": WITH CHECK (auth.uid() = user_id) *)
Definition Users_can_insert_own_tasks (t : tasks_row) : bool :=
  uid_is auth_uid (t_user_id t).

(** "Users can update own tasks": FOR UPDATE USING (auth.uid() = user_id) *)
Definition Users_can_update_own_tasks (t : tasks_row) : bool :=
  uid_is auth_uid (t_user_id t).

(** "Users can update shared tasks with edit permission": USING (EXISTS
    (SELECT 1 FROM task_shares WHERE task_shares.task_id = tasks.id
    AND task_shares.shared_with_user_id = auth.uid()
    AND task_shares.permission = 'edit')) *)
Definition Users_can_update_shared_tasks_with_edit_permission
           (db : Database) (t : tasks_row) : bool :=
  existsb (fun s => (s_task_id s =? t_id t)
                    && uid_is auth_uid (s_shared_with_user_id s)
                    && String.eqb (s_permission s) "edit")
          (visible_task_shares db).

Definition tasks_update_policy (db : Database) (t : tasks_row) : bool :=
  Users_can_update_own_tasks t
  || Users_can_update_shared_tasks_with_edit_permission db t.

(** "Users can delete own tasks": FOR DELETE USING (auth.uid() = user_id) *)
Definition Users_can_delete_own_tasks (t : tasks_row) : bool :=
  uid_is auth_uid (t_user_id t).

(** The rows of tasks a sub-select inside a policy can see. *)
Definition visible_tasks (db : Database) : list tasks_row :=
  filter (tasks_select_policy db) (tasks db).

(** "Users can create shares for their own tasks": WITH CHECK (EXISTS
    (SELECT 1 FROM tasks WHERE tasks.id = task_shares.task_id
    AND tasks.user_id = auth.uid())); the check reads the task_id column of
    the new row only. *)
Definition Users_can_create_shares_for_their_own_tasks
           (db : Database) (new_task_id : UUID) : bool :=
  existsb (fun t => (t_id t =? new_task_id) && uid_is auth_uid (t_user_id t))
          (visible_tasks db).

(** "Users can delete shares for their own tasks": the same predicate, USING *)
Definition Users_can_delete_shares_for_their_own_tasks
           (db : Database) (s : task_shares_row) : bool :=
  existsb (fun t => (t_id t =? s_task_id s) && uid_is auth_uid (t_user_id t))
          (visible_tasks db).

End WithCaller.

End Policy.
Export Policy.

(* ================================================================== *)
(** ** Statements against the tables, as the API runs them              *)
(* ================================================================== *)

Module Storage.

Notation "'ensure' b 'otherwise' e ; k" :=
  (if b then k else Err e)
  (at level 10, b at level 99, e at level 0, k at level 200, only parsing).

(** *** profiles *)

(** INSERT INTO public.profiles (id, email, full_name, avatar_url): the
    constraints of the table, in the order NOT NULL, primary key, foreign
    key.  [email] is [None] when the statement supplies NULL. *)
Definition profiles_insert_row (db : Database) (id : UUID) (email : option string)
           (full_name avatar_url : option string) : result Database :=
  match email with
  | None => Err NotNullViolation
  | Some e =>
      ensure negb (has_profile db id) otherwise UniqueViolation;
      ensure existsb (Nat.eqb id) (auth_users db) otherwise ForeignKeyViolation;
      Ok (mk_db (auth_users db)
                (profiles db ++ [mk_profile id e full_name avatar_url])
                (tasks db) (task_shares db))
  end.

(** The row of auth.users the trigger receives as NEW. *)
Record auth_user := mk_auth_user {
  NEW_id         : UUID;
  NEW_email      : option string;
  NEW_full_name  : option string;   (* raw_user_meta_data->>'full_name' *)
  NEW_avatar_url : option string    (* raw_user_meta_data->>'avatar_url' *)
}.

(** public.handle_new_user(), SECURITY DEFINER: the insert runs with the
    rights of the function's owner, no policy applies. *)
Definition handle_new_user (db : Database) (NEW : auth_user) : result Database :=
  profiles_insert_row db (NEW_id NEW) (NEW_email NEW)
                      (NEW_full_name NEW) (NEW_avatar_url NEW).

(** INSERT INTO auth.users with the trigger on_auth_user_created (AFTER
    INSERT ... FOR EACH ROW): a failing trigger aborts the insert. *)
Definition on_auth_user_created (db : Database) (NEW : auth_user) : result Database :=
  ensure negb (existsb (Nat.eqb (NEW_id NEW)) (auth_users db)) otherwise UniqueViolation;
  handle_new_user (mk_db (auth_users db ++ [NEW_id NEW])
                         (profiles db) (tasks db) (task_shares db)) NEW.

(** INSERT INTO profiles issued by a caller: the WITH CHECK policy first. *)
Definition insert_profile (auth_uid : option UUID) (db : Database) (id : UUID)
           (email : option string) (full_name avatar_url : option string)
  : result Database :=
  ensure Users_can_insert_own_profile auth_uid id otherwise RlsViolation;
  profiles_insert_row db id email full_name avatar_url.

(** The columns an UPDATE of profiles sets: the outer option is "the column
    is in the SET list", the inner one the value or NULL. *)
Record profile_update := mk_profile_update {
  pu_email      : option (option string);
  pu_full_name  : option (option string);
  pu_avatar_url : option (option string)
}.

Definition set_col {A} (new : option A) (old : A) : A :=
  match new with Some v => v | None => old end.

Definition apply_profile_update (u : profile_update) (p : profiles_row) (email : string)
  : profiles_row :=
  mk_profile (p_id p) email
             (set_col (pu_full_name u) (p_full_name p))
             (set_col (pu_avatar_url u) (p_avatar_url p)).

(** UPDATE profiles SET ... WHERE id = [id], issued by a caller.  Rows the
    UPDATE policy rejects are not touched; a touched row whose email would
    become NULL aborts the statement. *)
Definition update_profile (auth_uid : option UUID) (db : Database) (id : UUID)
           (u : profile_update) : result Database :=
  let target p := (p_id p =? id) && Users_can_update_own_profile auth_uid p
                  && Users_can_view_all_profiles p in
  match pu_email u with
  | Some None =>
      ensure negb (existsb target (profiles db)) otherwise NotNullViolation;
      Ok db
  | Some (Some e) =>
      Ok (mk_db (auth_users db)
                (map (fun p => if target p then apply_profile_update u p e else p)
                     (profiles db))
                (tasks db) (task_shares db))
  | None =>
      Ok (mk_db (auth_users db)
                (map (fun p => if target p then apply_profile_update u p (p_email p) else p)
                     (profiles db))
                (tasks db) (task_shares db))
  end.

(** from('profiles').select('id').eq('email', email).single() *)
Definition select_profile_by_email (auth_uid : option UUID) (db : Database)
           (email : string) : result UUID :=
  match filter (fun p => String.eqb (p_email p) email)
               (filter (Users_can_view_all_profiles) (profiles db)) with
  | [] => Err NoRows
  | [p] => Ok (p_id p)
  | _ :: _ :: _ => Err MultipleRows
  end.

(** *** tasks *)

(** The body of an insert into tasks. *)
Record task_insert := mk_task_insert {
  ti_title       : option string;
  ti_description : option string;
  ti_due_date    : option DATE;
  ti_priority    : string;
  ti_status      : string;
  ti_user_id     : UUID
}.

(** INSERT INTO tasks ... RETURNING *; [new_id] is the value gen_random_uuid()
    draws.  WITH CHECK policy, then NOT NULL, CHECK, primary key, foreign key;
    the returned row has to pass the SELECT policy. *)
Definition insert_task (auth_uid : option UUID) (db : Database) (new_id : UUID)
           (b : task_insert) : result (Database * tasks_row) :=
  match ti_title b with
  | None =>
      ensure uid_is auth_uid (ti_user_id b) otherwise RlsViolation;
      Err NotNullViolation
  | Some title =>
      let row := mk_task new_id (ti_user_id b) title (ti_description b)
                         (ti_due_date b) (ti_priority b) (ti_status b) in
      ensure Users_can_insert_own_tasks auth_uid row otherwise RlsViolation;
      ensure check_priority (ti_priority b) && check_status (ti_status b)
        otherwise CheckViolation;
      ensure negb (has_task db new_id) otherwise UniqueViolation;
      ensure has_profile db (ti_user_id b) otherwise ForeignKeyViolation;
      let db' := mk_db (auth_users db) (profiles db) (tasks db ++ [row])
                       (task_shares db) in
      ensure tasks_select_policy auth_uid db' row otherwise RlsViolation;
      Ok (db', row)
  end.

(** The columns an update of a task sets.  The callers of updateTask send
    title, description, due_date, priority and status (Index.tsx); the key
    columns id and user_id are never in the body. *)
Record task_update := mk_task_update {
  u_title       : option string;
  u_description : option (option string);
  u_due_date    : option (option DATE);
  u_priority    : option string;
  u_status      : option string
}.

Definition apply_task_update (u : task_update) (t : tasks_row) : tasks_row :=
  mk_task (t_id t) (t_user_id t)
          (set_col (u_title u) (t_title t))
          (set_col (u_description u) (t_description t))
          (set_col (u_due_date u) (t_due_date t))
          (set_col (u_priority u) (t_priority t))
          (set_col (u_status u) (t_status t)).

(** The rows UPDATE tasks ... WHERE id = [task_id] touches: the WHERE clause,
    the UPDATE policies (USING) and, the WHERE clause reading a column, the
    SELECT policies.  Other rows are skipped without an error. *)
Definition update_target (auth_uid : option UUID) (db : Database) (task_id : UUID)
           (t : tasks_row) : bool :=
  (t_id t =? task_id) && tasks_update_policy auth_uid db t
  && tasks_select_policy auth_uid db t.

(** from('tasks').update(updates).eq('id', taskId).  The UPDATE policies have
    no WITH CHECK, so their USING expression is checked on the new row too;
    then the CHECK constraints.  An error aborts the whole statement. *)
Definition update_tasks (auth_uid : option UUID) (db : Database) (task_id : UUID)
           (u : task_update) : result Database :=
  let touched := filter (update_target auth_uid db task_id) (tasks db) in
  ensure forallb (fun t => tasks_update_policy auth_uid db (apply_task_update u t)) touched
    otherwise RlsViolation;
  ensure forallb (fun t => check_priority (t_priority (apply_task_update u t))
                           && check_status (t_status (apply_task_update u t))) touched
    otherwise CheckViolation;
  Ok (mk_db (auth_users db) (profiles db)
            (map (fun t => if update_target auth_uid db task_id t
                           then apply_task_update u t else t) (tasks db))
            (task_shares db)).

(** The rows DELETE FROM tasks WHERE id = [task_id] removes. *)
Definition delete_target (auth_uid : option UUID) (db : Database) (task_id : UUID)
           (t : tasks_row) : bool :=
  (t_id t =? task_id) && Users_can_delete_own_tasks auth_uid t
  && tasks_select_policy auth_uid db t.

(** from('tasks').delete().eq('id', taskId).  task_shares.task_id REFERENCES
    tasks(id) ON DELETE CASCADE: the shares of every removed task go with it
    (the referential action is not subject to the policies of task_shares). *)
Definition delete_tasks (auth_uid : option UUID) (db : Database) (task_id : UUID)
  : result Database :=
  let removed := map t_id (filter (delete_target auth_uid db task_id) (tasks db)) in
  Ok (mk_db (auth_users db) (profiles db)
            (filter (fun t => negb (delete_target auth_uid db task_id t)) (tasks db))
            (filter (fun s => negb (existsb (Nat.eqb (s_task_id s)) removed))
                    (task_shares db))).

(** *** task_shares *)

(** The body of an insert into task_shares; shared_by_user_id is [user?.id],
    absent (NULL) without a signed-in user. *)
Record share_insert := mk_share_insert {
  si_task_id             : UUID;
  si_shared_by_user_id   : option UUID;
  si_shared_with_user_id : UUID;
  si_permission          : string
}.

(** from('task_shares').insert([...]): WITH CHECK policy, NOT NULL, CHECK,
    primary key, UNIQUE(task_id, shared_with_user_id), foreign keys. *)
Definition insert_share (auth_uid : option UUID) (db : Database) (new_id : UUID)
           (b : share_insert) : result Database :=
  ensure Users_can_create_shares_for_their_own_tasks auth_uid db (si_task_id b)
    otherwise RlsViolation;
  match si_shared_by_user_id b with
  | None => Err NotNullViolation
  | Some by_id =>
      ensure check_permission (si_permission b) otherwise CheckViolation;
      ensure negb (existsb (fun s => s_id s =? new_id) (task_shares db))
        otherwise UniqueViolation;
      ensure negb (existsb (same_share_key (si_task_id b) (si_shared_with_user_id b))
                           (task_shares db))
        otherwise UniqueViolation;
      ensure has_task db (si_task_id b) && has_profile db by_id
             && has_profile db (si_shared_with_user_id b)
        otherwise ForeignKeyViolation;
      Ok (mk_db (auth_users db) (profiles db) (tasks db)
                (task_shares db ++
                 [mk_share new_id (si_task_id b) by_id
                           (si_shared_with_user_id b) (si_permission b)]))
  end.

(** *** The two selects of fetchTasks *)

(** profiles (full_name, email) *)
Record profile_summary := mk_profile_summary {
  ps_full_name : option string;
  ps_email     : string
}.

(** task_shares (permission, shared_with_user_id, profiles (...)) *)
Record share_view := mk_share_view {
  sv_permission          : string;
  sv_shared_with_user_id : UUID;
  sv_profiles            : option profile_summary
}.

(** The Task interface of useTasks.ts: the columns of the row, the embedded
    owner profile and the embedded shares. *)
Record Task := mk_Task {
  task_row         : tasks_row;
  task_profiles    : option profile_summary;
  task_task_shares : list share_view
}.

Definition task_id_of (t : Task) : UUID := t_id (task_row t).

(** The to-one embed profiles:<column> (full_name, email). *)
Definition embed_profile (auth_uid : option UUID) (db : Database) (id : UUID)
  : option profile_summary :=
  match find (fun p => p_id p =? id)
             (filter (Users_can_view_all_profiles) (profiles db)) with
  | Some p => Some (mk_profile_summary (p_full_name p) (p_email p))
  | None => None
  end.

Definition embed_share (auth_uid : option UUID) (db : Database) (s : task_shares_row)
  : share_view :=
  mk_share_view (s_permission s) (s_shared_with_user_id s)
                (embed_profile auth_uid db (s_shared_with_user_id s)).

(** from('tasks').select(`*, profiles:user_id (...), task_shares (...)`)
      .eq('user_id', user.id) *)
Definition select_owned_tasks (auth_uid : option UUID) (db : Database) (user_id : UUID)
  : list Task :=
  map (fun t =>
         mk_Task t (embed_profile auth_uid db (t_user_id t))
                 (map (embed_share auth_uid db)
                      (filter (fun s => s_task_id s =? t_id t)
                              (visible_task_shares auth_uid db))))
      (filter (fun t => t_user_id t =? user_id) (visible_tasks auth_uid db)).

(** The shares of task [t] the inner join keeps:
    task_shares!inner (...) with .eq('task_shares.shared_with_user_id', user.id) *)
Definition inner_shares (auth_uid : option UUID) (db : Database) (user_id : UUID)
           (t : tasks_row) : list task_shares_row :=
  filter (fun s => (s_task_id s =? t_id t) && (s_shared_with_user_id s =? user_id))
         (visible_task_shares auth_uid db).

(** from('tasks').select(`*, profiles:user_id (...), task_shares!inner (...)`)
      .eq('task_shares.shared_with_user_id', user.id):
    a task is returned when the inner join is not empty. *)
Definition select_shared_tasks (auth_uid : option UUID) (db : Database) (user_id : UUID)
  : list Task :=
  map (fun t =>
         mk_Task t (embed_profile auth_uid db (t_user_id t))
                 (map (embed_share auth_uid db) (inner_shares auth_uid db user_id t)))
      (filter (fun t => match inner_shares auth_uid db user_id t with
                        | [] => false
                        | _ :: _ => true
                        end)
              (visible_tasks auth_uid db)).

End Storage.
Export Storage.

(* ================================================================== *)
(** ** hooks/useTasks.ts                                                *)
(* ================================================================== *)

Module useTasks.

(** toast({ title, description, variant }) *)
Record toast_props := mk_toast {
  toast_title       : string;
  toast_description : string;
  toast_variant     : option string
}.

Definition toast_error (description : string) : toast_props :=
  mk_toast "Error" description (Some "destructive").

Definition toast_success (description : string) : toast_props :=
  mk_toast "Success" description None.

(** Whether the provider answers each request an operation issues: the
    profile look-up, the mutation, and the two selects of fetchTasks.  A
    request that gets no answer yields an error object and changes nothing. *)
Record Net := mk_net {
  up_profiles : bool;
  up_mutation : bool;
  up_owned    : bool;
  up_shared   : bool
}.

Definition all_up : Net := mk_net true true true true.

Definition request {A} (up : bool) (r : result A) : result A :=
  if up then r else Err ProviderUnavailable.

(** const [tasks, setTasks] = useState<Task[]>([]);
    const [loading, setLoading] = useState(true); *)
Record State := mk_state {
  st_tasks   : list Task;
  st_loading : bool
}.

Definition initial_state : State := mk_state [] true.

(** What one call leaves behind: the database, the hook state, and the toasts
    it raised, oldest first. *)
Record Outcome := mk_outcome {
  out_db     : Database;
  out_state  : State;
  out_toasts : list toast_props
}.

(** allTasks = [...(ownedTasks || []).map(...), ...(sharedTasks || []).map(...)];
    the two maps only re-type priority and status. *)
Definition allTasks (ownedTasks sharedTasks : list Task) : list Task :=
  ownedTasks ++ sharedTasks.

(** fetchTasks.  [user] is the signed-in identity of useAuth, which is also
    the identity the requests carry. *)
Definition fetchTasks (user : option UUID) (net : Net) (db : Database) (st : State)
  : State * list toast_props :=
  match user with
  | None => (st, [])                                   (* if (!user) return; *)
  | Some user_id =>
      match request (up_owned net) (Ok (select_owned_tasks user db user_id)) with
      | Err _ =>
          (mk_state (st_tasks st) false, [toast_error "Failed to fetch tasks"])
      | Ok ownedTasks =>
          match request (up_shared net) (Ok (select_shared_tasks user db user_id)) with
          | Err _ =>
              (mk_state (st_tasks st) false, [toast_error "Failed to fetch tasks"])
          | Ok sharedTasks =>
              (mk_state (allTasks ownedTasks sharedTasks) false, [])
          end
      end
  end.

(** Omit<Task, 'id' | 'user_id' | 'created_at' | 'updated_at'>: the columns
    the caller of createTask supplies. *)
Record task_data := mk_task_data {
  td_title       : string;
  td_description : option string;
  td_due_date    : option DATE;
  td_priority    : string;
  td_status      : string
}.

(** createTask; [new_id] is the id the table default draws for the row. *)
Definition createTask (user : option UUID) (net : Net) (db : Database) (st : State)
           (new_id : UUID) (taskData : task_data) : Outcome :=
  match user with
  | None => mk_outcome db st []                        (* if (!user) return; *)
  | Some user_id =>
      match request (up_mutation net)
                    (insert_task user db new_id
                       (mk_task_insert (Some (td_title taskData))
                                       (td_description taskData)
                                       (td_due_date taskData)
                                       (td_priority taskData)
                                       (td_status taskData)
                                       user_id)) with
      | Err _ => mk_outcome db st [toast_error "Failed to create task"]
      | Ok (db', _) =>
          let (st', ts) := fetchTasks user net db' st in
          mk_outcome db' st' (ts ++ [toast_success "Task created successfully"])
      end
  end.

(** updateTask *)
Definition updateTask (user : option UUID) (net : Net) (db : Database) (st : State)
           (taskId : UUID) (updates : task_update) : Outcome :=
  match request (up_mutation net) (update_tasks user db taskId updates) with
  | Err _ => mk_outcome db st [toast_error "Failed to update task"]
  | Ok db' =>
      let (st', ts) := fetchTasks user net db' st in
      mk_outcome db' st' (ts ++ [toast_success "Task updated successfully"])
  end.

(** deleteTask *)
Definition deleteTask (user : option UUID) (net : Net) (db : Database) (st : State)
           (taskId : UUID) : Outcome :=
  match request (up_mutation net) (delete_tasks user db taskId) with
  | Err _ => mk_outcome db st [toast_error "Failed to delete task"]
  | Ok db' =>
      let (st', ts) := fetchTasks user net db' st in
      mk_outcome db' st' (ts ++ [toast_success "Task deleted successfully"])
  end.

(** shareTask; [new_id] is the id the table default draws for the share. *)
Definition shareTask (user : option UUID) (net : Net) (db : Database) (st : State)
           (new_id : UUID) (taskId : UUID) (email : string) (permission : string)
  : Outcome :=
  match request (up_profiles net) (select_profile_by_email user db email) with
  | Err _ =>                                 (* if (profileError || !profile) *)
      mk_outcome db st [toast_error "User not found with this email address"]
  | Ok profile_id =>
      match request (up_mutation net)
                    (insert_share user db new_id
                       (mk_share_insert taskId user profile_id permission)) with
      | Err _ => mk_outcome db st [toast_error "Failed to share task"]
      | Ok db' =>
          let (st', ts) := fetchTasks user net db' st in
          mk_outcome db' st' (ts ++ [toast_success ("Task shared with " ++ email)])
      end
  end.

(** The four mutations the hook returns, as one type. *)
Inductive mutation :=
| CreateTask (new_id : UUID) (taskData : task_data)
| UpdateTask (taskId : UUID) (updates : task_update)
| DeleteTask (taskId : UUID)
| ShareTask  (new_id : UUID) (taskId : UUID) (email : string) (permission : string).

Definition run (user : option UUID) (net : Net) (db : Database) (st : State)
           (m : mutation) : Outcome :=
  match m with
  | CreateTask new_id taskData => createTask user net db st new_id taskData
  | UpdateTask taskId updates => updateTask user net db st taskId updates
  | DeleteTask taskId => deleteTask user net db st taskId
  | ShareTask new_id taskId email permission =>
      shareTask user net db st new_id taskId email permission
  end.

(** A call reports success when it raises the toast titled "Success"; every
    other way out of a mutation (the catch branch, an early return) is a
    failure of the call. *)
Definition reports_success (ts : list toast_props) : bool :=
  existsb (fun t => String.eqb (toast_title t) "Success") ts.

Definition reports_error (ts : list toast_props) : bool :=
  existsb (fun t => String.eqb (toast_title t) "Error") ts.

End useTasks.
Export useTasks.

(* ================================================================== *)
(** ** components/TaskCard.tsx                                          *)
(* ================================================================== *)

Module TaskCard.

Local Open Scope Z_scope.

Definition statusOrder : list string := ["pending"; "in-progress"; "completed"]%string.

(** Array.prototype.indexOf: the first index holding the value, -1 if none. *)
Fixpoint indexOf_from (l : list string) (x : string) (i : Z) : Z :=
  match l with
  | [] => -1
  | y :: l' => if String.eqb y x then i else indexOf_from l' x (i + 1)
  end.

Definition indexOf (l : list string) (x : string) : Z := indexOf_from l x 0.

(** statusOrder[i]: undefined outside the array. *)
Definition at_index (l : list string) (i : Z) : option string :=
  if i <? 0 then None else nth_error l (Z.to_nat i).

(** handleStatusChange: the status handed to onUpdate.  JavaScript's [%] is
    the remainder that takes the sign of the dividend, [Z.rem]. *)
Definition handleStatusChange (task_status : string) : option string :=
  let currentIndex := indexOf statusOrder task_status in
  let nextIndex := Z.rem (currentIndex + 1) (Z.of_nat (List.length statusOrder)) in
  at_index statusOrder nextIndex.

End TaskCard.
Export TaskCard.

(* ================================================================== *)
(** ** components/CreateTaskModal.tsx and pages/Index.tsx               *)
(* ================================================================== *)

Module CreateTaskModal.

(** White space String.prototype.trim removes, within ASCII: TAB, LF, VT, FF,
    CR and SPACE.  (The non-ASCII white space it also removes is outside one
    byte and is not treated here.) *)
Definition is_white_space (c : ascii) : bool :=
  let n := nat_of_ascii c in
  ((9 <=? n) && (n <=? 13)) || (n =? 32).

Fixpoint trimStart (s : string) : string :=
  match s with
  | EmptyString => EmptyString
  | String c r => if is_white_space c then trimStart r else s
  end.

Definition reverse (s : string) : string :=
  string_of_list_ascii (rev (list_ascii_of_string s)).

Definition trim (s : string) : string :=
  reverse (trimStart (reverse (trimStart s))).

(** The fields of the form (useState): dueDate is the value of the date
    input, [None] for the empty string. *)
Record form := mk_form {
  title       : string;
  description : string;
  dueDate     : option DATE;
  priority    : string;
  status      : string
}.

Definition reset_form : form := mk_form "" "" None "medium" "pending".

(** handleSubmit: what is handed to onSubmit, if anything, and the form
    afterwards. *)
Definition handleSubmit (f : form) : option task_data * form :=
  if String.eqb (trim (title f)) ""                 (* if (!title.trim()) return; *)
  then (None, f)
  else (Some (mk_task_data (trim (title f))
                           (if String.eqb (trim (description f)) ""
                            then None else Some (trim (description f)))
                           (dueDate f)
                           (priority f)
                           (status f)),
        reset_form).

End CreateTaskModal.
Export CreateTaskModal.

Module Index.

(** handleCreateTask: onSubmit of the CreateTaskModal. *)
Definition handleCreateTask := createTask.

(** Submitting the form of the CreateTaskModal on the page. *)
Definition submitCreateTask (user : option UUID) (net : Net) (db : Database)
           (st : State) (new_id : UUID) (f : form) : Outcome :=
  match fst (handleSubmit f) with
  | None => mk_outcome db st []
  | Some taskData => handleCreateTask user net db st new_id taskData
  end.

End Index.
Export Index.

(* ================================================================== *)
(** ** The constraints of the schema, as a property of a database       *)
(* ================================================================== *)

Module Integrity.

(** What the declarations of the three tables promise of every state:
    primary keys, UNIQUE(task_id, shared_with_user_id), the REFERENCES
    clauses and the CHECK constraints. *)
Record Consistent (db : Database) : Prop := mk_consistent {
  pk_profiles    : NoDup (map p_id (profiles db));
  pk_tasks       : NoDup (map t_id (tasks db));
  pk_task_shares : NoDup (map s_id (task_shares db));
  uq_task_shares : NoDup (map share_key (task_shares db));
  fk_profiles_id : forall p, In p (profiles db) -> In (p_id p) (auth_users db);
  fk_tasks_user  : forall t, In t (tasks db) -> has_profile db (t_user_id t) = true;
  fk_shares_task : forall s, In s (task_shares db) -> has_task db (s_task_id s) = true;
  fk_shares_by   : forall s, In s (task_shares db) ->
                             has_profile db (s_shared_by_user_id s) = true;
  fk_shares_with : forall s, In s (task_shares db) ->
                             has_profile db (s_shared_with_user_id s) = true;
  ck_tasks       : forall t, In t (tasks db) ->
                             check_priority (t_priority t) = true
                             /\ check_status (t_status t) = true;
  ck_task_shares : forall s, In s (task_shares db) ->
                             check_permission (s_permission s) = true
}.

End Integrity.
Export Integrity.

(* ================================================================== *)
(** ** components/ShareTaskModal.tsx                                    *)
(* ================================================================== *)

Module ShareTaskModal.

(** Regular expressions over characters, as far as the pattern of
    validateEmail needs them, with a matcher by derivatives. *)
Inductive regex :=
| Never                              (* matches nothing *)
| Empty                              (* the empty string *)
| Class (member : ascii -> bool)     (* one character of a class *)
| Seq (r1 r2 : regex)
| Or (r1 r2 : regex)
| Many (r : regex).                  (* r* *)

(** r+ *)
Definition Some1 (r : regex) : regex := Seq r (Many r).

Fixpoint nullable (r : regex) : bool :=
  match r with
  | Never => false
  | Empty => true
  | Class _ => false
  | Seq r1 r2 => nullable r1 && nullable r2
  | Or r1 r2 => nullable r1 || nullable r2
  | Many _ => true
  end.

Fixpoint after (c : ascii) (r : regex) : regex :=
  match r with
  | Never => Never
  | Empty => Never
  | Class member => if member c then Empty else Never
  | Seq r1 r2 =>
      if nullable r1 then Or (Seq (after c r1) r2) (after c r2)
      else Seq (after c r1) r2
  | Or r1 r2 => Or (after c r1) (after c r2)
  | Many r1 => Seq (after c r1) (Many r1)
  end.

(** The words a regular expression denotes. *)
Fixpoint denotes (r : regex) (w : list ascii) : Prop :=
  match r with
  | Never => False
  | Empty => w = []
  | Class member => exists c, w = [c] /\ member c = true
  | Seq r1 r2 => exists w1 w2, w = (w1 ++ w2)%list /\ denotes r1 w1 /\ denotes r2 w2
  | Or r1 r2 => denotes r1 w \/ denotes r2 w
  | Many r1 => exists ws, w = List.concat ws /\ Forall (denotes r1) ws
  end.

(** A match of the whole input (the pattern is anchored by ^ and $). *)
Fixpoint test_chars (r : regex) (input : list ascii) : bool :=
  match input with
  | [] => nullable r
  | c :: rest => test_chars (after c r) rest
  end.

(** [^\s@] *)
Definition not_space_not_at (c : ascii) : bool :=
  negb (is_white_space c) && negb (Ascii.eqb c "@").

(** /^[^\s@]+@[^\s@]+\.[^\s@]+$/ *)
Definition emailRegex : regex :=
  Seq (Some1 (Class not_space_not_at))
      (Seq (Class (Ascii.eqb "@"))
           (Seq (Some1 (Class not_space_not_at))
                (Seq (Class (Ascii.eqb "."))
                     (Some1 (Class not_space_not_at))))).

Definition validateEmail (email : string) : bool :=
  test_chars emailRegex (list_ascii_of_string email).

(** A non-empty string without white space and without '@': what [^\s@]+
    stands for. *)
Definition plain_part (x : string) : Prop :=
  x <> "" /\ Forall (fun c => not_space_not_at c = true) (list_ascii_of_string x).

(** String.prototype.toLowerCase, within ASCII: A-Z to a-z. *)
Definition lower_char (c : ascii) : ascii :=
  let n := nat_of_ascii c in
  if (65 <=? n) && (n <=? 90) then ascii_of_nat (n + 32) else c.

Fixpoint toLowerCase (s : string) : string :=
  match s with
  | EmptyString => EmptyString
  | String c r => String (lower_char c) (toLowerCase r)
  end.

(** Array.prototype.includes on an array of strings. *)
Definition includes (l : list string) (x : string) : bool :=
  existsb (String.eqb x) l.

(** The state of the dialog (useState). *)
Record modal := mk_modal {
  emailInput : string;
  emails     : list string;
  error      : string
}.

Definition closed_modal : modal := mk_modal "" [] "".

(** addEmail; [sharedWith] is task.sharedWith of the props. *)
Definition addEmail (sharedWith : list string) (m : modal) : modal :=
  let trimmedEmail := toLowerCase (trim (emailInput m)) in
  if String.eqb trimmedEmail "" then
    mk_modal (emailInput m) (emails m) "Please enter an email address"
  else if negb (validateEmail trimmedEmail) then
    mk_modal (emailInput m) (emails m) "Please enter a valid email address"
  else if includes (emails m) trimmedEmail then
    mk_modal (emailInput m) (emails m) "This email is already added"
  else if includes sharedWith trimmedEmail then
    mk_modal (emailInput m) (emails m) "Task is already shared with this user"
  else
    mk_modal "" (emails m ++ [trimmedEmail]) "".

(** removeEmail *)
Definition removeEmail (emailToRemove : string) (m : modal) : modal :=
  mk_modal (emailInput m)
           (filter (fun email => negb (String.eqb email emailToRemove)) (emails m))
           (error m).

(** onChange of the input: setEmailInput(value); if (error) setError(''). *)
Definition onChange (value : string) (m : modal) : modal :=
  mk_modal value (emails m) (if String.eqb (error m) "" then error m else "").

(** handleClose *)
Definition handleClose (m : modal) : modal := closed_modal.

(** handleSubmit: the list handed to onShare, if any, and the state after. *)
Definition handleSubmit (m : modal) : option (list string) * modal :=
  match emails m with
  | [] => (None, mk_modal (emailInput m) (emails m)
                          "Please add at least one email address")
  | _ :: _ => (Some (emails m), handleClose m)
  end.

(** What a user can do with the open dialog. *)
Inductive action :=
| Type_ (value : string)
| PressAdd                  (* the + button, or Enter in the input *)
| PressRemove (email : string)
| PressShare
| PressCancel.

Definition act (sharedWith : list string) (m : modal) (a : action) : modal :=
  match a with
  | Type_ value => onChange value m
  | PressAdd => addEmail sharedWith m
  | PressRemove email => removeEmail email m
  | PressShare => snd (handleSubmit m)
  | PressCancel => handleClose m
  end.

Definition session (sharedWith : list string) (actions : list action) : modal :=
  fold_left (act sharedWith) actions closed_modal.

(** What is kept of the list of addresses in every state of the dialog: no
    address twice, each accepted by validateEmail, in lower case, and not in
    sharedWith. *)
Definition clean (sharedWith : list string) (m : modal) : Prop :=
  NoDup (emails m)
  /\ Forall (fun e => validateEmail e = true /\ toLowerCase e = e
                      /\ includes sharedWith e = false) (emails m).

End ShareTaskModal.

(* ================================================================== *)
(** ** components/TaskFilters.tsx                                       *)
(* ================================================================== *)

Module TaskFilters.

Record Filters := mk_filters {
  f_status   : string;
  f_priority : string;
  f_dueDate  : string
}.

Inductive filter_key := key_status | key_priority | key_dueDate.

(** updateFilter: onFiltersChange({ ...filters, [key]: value }) *)
Definition updateFilter (filters : Filters) (key : filter_key) (value : string)
  : Filters :=
  match key with
  | key_status => mk_filters value (f_priority filters) (f_dueDate filters)
  | key_priority => mk_filters (f_status filters) value (f_dueDate filters)
  | key_dueDate => mk_filters (f_status filters) (f_priority filters) value
  end.

(** clearFilters *)
Definition clearFilters : Filters := mk_filters "all" "all" "all".

(** Object.values(filters).filter(value => value !== 'all').length *)
Definition activeFiltersCount (filters : Filters) : nat :=
  List.length (filter (fun value => negb (String.eqb value "all"))
                      [f_status filters; f_priority filters; f_dueDate filters]).

End TaskFilters.

(* ================================================================== *)
(** ** pages/Index.tsx, the rest                                        *)
(* ================================================================== *)

Module IndexPage.

Import ShareTaskModal TaskFilters.
Local Open Scope Z_scope.

(** String.prototype.includes: the needle occurs at some position. *)
Fixpoint str_includes (hay needle : string) : bool :=
  String.prefix needle hay
  || match hay with
     | EmptyString => false
     | String _ rest => str_includes rest needle
     end.

(** The search predicate of the first filter. *)
Definition matches_search (searchQuery : string) (task : Task) : bool :=
  str_includes (toLowerCase (t_title (task_row task))) (toLowerCase searchQuery)
  || match t_description (task_row task) with
     | Some d =>
         if String.eqb d "" then false
         else str_includes (toLowerCase d) (toLowerCase searchQuery)
     | None => false
     end.

Definition ms_per_day : Z := 86400000.

(** new Date(task.due_date).getTime(): a date-only string is read as UTC
    midnight; a DATE counts the days from 1970-01-01. *)
Definition date_ms (d : DATE) : Z := Z.of_nat d * ms_per_day.

(** The due-date predicate; [now] is new Date().getTime().  todayStr is the
    UTC calendar day of [now], and two date strings are equal when their days
    are. *)
Definition matches_dueDate (now : Z) (dueDate : string) (task : Task) : bool :=
  match t_due_date (task_row task) with
  | None => false                                  (* if (!task.due_date) *)
  | Some d =>
      if String.eqb dueDate "today" then Z.of_nat d =? now / ms_per_day
      else if String.eqb dueDate "overdue" then
        (date_ms d <? now)
        && negb (String.eqb (t_status (task_row task)) "completed")
      else if String.eqb dueDate "upcoming" then now <? date_ms d
      else true
  end.

(** The effect that computes filteredTasks. *)
Definition filteredTasks (now : Z) (tasks : list Task) (searchQuery : string)
           (filters : Filters) : list Task :=
  let filtered := filter (matches_search searchQuery) tasks in
  let filtered :=
    if String.eqb (f_status filters) "all" then filtered
    else filter (fun task => String.eqb (t_status (task_row task)) (f_status filters))
                filtered in
  let filtered :=
    if String.eqb (f_priority filters) "all" then filtered
    else filter (fun task => String.eqb (t_priority (task_row task))
                                        (f_priority filters))
                filtered in
  if String.eqb (f_dueDate filters) "all" then filtered
  else filter (matches_dueDate now (f_dueDate filters)) filtered.

(** getTaskStats *)
Record stats := mk_stats {
  total      : nat;
  completed  : nat;
  pending    : nat;
  inProgress : nat;
  overdue    : nat
}.

Definition count {A} (p : A -> bool) (l : list A) : nat := List.length (filter p l).

Definition getTaskStats (now : Z) (tasks : list Task) : stats :=
  mk_stats
    (List.length tasks)
    (count (fun t => String.eqb (t_status (task_row t)) "completed") tasks)
    (count (fun t => String.eqb (t_status (task_row t)) "pending") tasks)
    (count (fun t => String.eqb (t_status (task_row t)) "in-progress") tasks)
    (count (fun t => match t_due_date (task_row t) with
                     | Some d => (date_ms d <? now)
                                 && negb (String.eqb (t_status (task_row t)) "completed")
                     | None => false
                     end) tasks).

(** The loop of handleShareTask: one shareTask per address, always with the
    permission 'view'; each call comes with the id drawn for its row. *)
Fixpoint share_each (user : option UUID) (net : Net) (db : Database) (st : State)
         (taskId : UUID) (draws : list (UUID * string)) : Outcome :=
  match draws with
  | [] => mk_outcome db st []
  | (new_id, email) :: rest =>
      let o := shareTask user net db st new_id taskId email "view" in
      let o' := share_each user net (out_db o) (out_state o) taskId rest in
      mk_outcome (out_db o') (out_state o') (out_toasts o ++ out_toasts o')
  end.

(** handleShareTask *)
Definition handleShareTask (user : option UUID) (net : Net) (db : Database)
           (st : State) (selectedTask : option Task) (draws : list (UUID * string))
  : Outcome :=
  match selectedTask with
  | None => mk_outcome db st []
  | Some task => share_each user net db st (task_id_of task) draws
  end.

(** sharedWith: task.task_shares?.map(share => share.profiles.email) || [];
    reading .email of a null profile throws. *)
Fixpoint sharedWith (shares : list share_view) : option (list string) :=
  match shares with
  | [] => Some []
  | s :: rest =>
      match sv_profiles s, sharedWith rest with
      | Some p, Some l => Some (ps_email p :: l)
      | _, _ => None
      end
  end.

End IndexPage.

(* ================================================================== *)
(** ** Strings as lists of characters                                   *)
(* ================================================================== *)

Module Chars.


End Chars.

(* ================================================================== *)
(** ** Concrete states: the running example (two users, one task)       *)
(* ================================================================== *)

Module Scenario.

Definition alice : UUID := 1.
Definition bob : UUID := 2.
Definition alice_email : string := "alice@example.com".
Definition bob_email : string := "bob@example.com".

(** Both identities signed up; the trigger made their profiles. *)
Definition db_users : Database :=
  mk_db [alice; bob]
        [mk_profile alice alice_email None None; mk_profile bob bob_email None None]
        [] [].

Definition write_report : tasks_row :=
  mk_task 10 alice "Write report" None None "high" "pending".

(** Alice created the task "Write report". *)
Definition db_task : Database :=
  mk_db (auth_users db_users) (profiles db_users) [write_report] [].

(** Alice shared it with Bob, permission 'view'. *)
Definition db_shared_view : Database :=
  mk_db (auth_users db_users) (profiles db_users) [write_report]
        [mk_share 20 10 alice bob "view"].

(** Alice shared it with her own address. *)
Definition db_self_shared : Database :=
  mk_db (auth_users db_users) (profiles db_users) [write_report]
        [mk_share 20 10 alice alice "view"].

(** Bob set the email of his own profile to Alice's address. *)
Definition db_same_email : Database :=
  mk_db (auth_users db_users)
        [mk_profile alice alice_email None None; mk_profile bob alice_email None None]
        [] [].

Definition untitled : task_data := mk_task_data "" None None "medium" "pending".

Definition rename : task_update :=
  mk_task_update (Some "Bob was here") None None None None.

End Scenario.

(* ================================================================== *)
(** ** General facts                                                    *)
(* ================================================================== *)

Arguments fetchTasks : simpl never.

(** The states of the running example are reached through the code: two
    sign-ups from the empty database, then Alice's createTask. *)
Example scenario_is_reachable :
  (exists db1,
      on_auth_user_created empty_db
        (mk_auth_user Scenario.alice (Some Scenario.alice_email) None None) = Ok db1
      /\ on_auth_user_created db1
           (mk_auth_user Scenario.bob (Some Scenario.bob_email) None None)
         = Ok Scenario.db_users)
  /\ out_db (createTask (Some Scenario.alice) all_up Scenario.db_users initial_state 10
                        (mk_task_data "Write report" None None "high" "pending"))
     = Scenario.db_task.
Proof. split; [eexists; split; reflexivity | reflexivity]. Qed.

Lemma db_eta (db : Database) :
  mk_db (auth_users db) (profiles db) (tasks db) (task_shares db) = db.
Proof. destruct db; reflexivity. Qed.

Lemma filter_nil_iff {A} (f : A -> bool) (l : list A) :
  filter f l = [] <-> forall x, In x l -> f x = false.
Proof.
  induction l as [|a l IH]; simpl.
  - split; [intros _ x [] | reflexivity].
  - destruct (f a) eqn:E; split.
    + discriminate.
    + intros H. specialize (H a (or_introl eq_refl)). congruence.
    + intros H x [<- | Hx]; [assumption | now apply IH].
    + intros H. apply IH. intros x Hx. apply H. now right.
Qed.

Lemma map_if_false {A} (f : A -> bool) (g : A -> A) (l : list A) :
  (forall x, In x l -> f x = false) ->
  map (fun x => if f x then g x else x) l = l.
Proof.
  intros H. induction l as [|a l IH]; simpl; [reflexivity|].
  rewrite (H a (or_introl eq_refl)). f_equal. apply IH.
  intros x Hx. apply H. now right.
Qed.

(** The primary key of [tasks]: distinct ids survive a WHERE clause, and two
    rows of the table with one id are one row. *)
Lemma task_ids_distinct_filter (keep : tasks_row -> bool) (rows : list tasks_row) :
  NoDup (map t_id rows) -> NoDup (map t_id (filter keep rows)).
Proof.
  intros Hpk. induction rows as [|r rows IH]; simpl; [constructor|].
  simpl in Hpk. apply NoDup_cons_iff in Hpk as [Hfresh Hrest].
  destruct (keep r); simpl; [|now apply IH].
  apply NoDup_cons; [|now apply IH].
  rewrite in_map_iff. intros (r' & Hid & Hr').
  apply filter_In in Hr' as [Hr' _].
  apply Hfresh. rewrite <- Hid. now apply in_map.
Qed.

Lemma task_id_determines_row (rows : list tasks_row) (r1 r2 : tasks_row) :
  NoDup (map t_id rows) -> In r1 rows -> In r2 rows -> t_id r1 = t_id r2 -> r1 = r2.
Proof.
  intros Hpk. induction rows as [|r rows IH]; simpl; [tauto|].
  simpl in Hpk. apply NoDup_cons_iff in Hpk as [Hfresh Hrest].
  intros [-> | H1] [-> | H2] Hid; auto.
  - exfalso. apply Hfresh. rewrite Hid. now apply in_map.
  - exfalso. apply Hfresh. rewrite <- Hid. now apply in_map.
Qed.

Lemma uid_is_true (a : option UUID) (x : UUID) :
  uid_is a x = true <-> a = Some x.
Proof.
  unfold uid_is. destruct a as [u|].
  - rewrite Nat.eqb_eq. split; [intros ->; reflexivity | intros [= ->]; reflexivity].
  - split; discriminate.
Qed.

(** A share addressed to the caller is never hidden from the caller by the
    SELECT policy of task_shares, so a sub-select that asks for shares
    addressed to the caller sees all of them. *)
Lemma shared_with_caller_visible (a : option UUID) (db : Database)
      (P : task_shares_row -> bool) :
  existsb (fun s => P s && uid_is a (s_shared_with_user_id s)) (visible_task_shares a db)
  = existsb (fun s => P s && uid_is a (s_shared_with_user_id s)) (task_shares db).
Proof.
  unfold visible_task_shares.
  induction (task_shares db) as [|s l IH]; simpl; [reflexivity|].
  unfold Users_can_view_task_shares_for_their_tasks at 1.
  destruct (uid_is a (s_shared_with_user_id s)) eqn:E.
  - rewrite orb_true_r. simpl. rewrite E, IH. reflexivity.
  - rewrite orb_false_r, andb_false_r. simpl.
    destruct (uid_is a (s_shared_by_user_id s)); simpl;
      rewrite ?E, ?andb_false_r; simpl; exact IH.
Qed.

Lemma Users_can_view_shared_tasks_spec (a : option UUID) (db : Database) (t : tasks_row) :
  Users_can_view_shared_tasks a db t = true <->
  exists u s, a = Some u /\ In s (task_shares db)
              /\ s_task_id s = t_id t /\ s_shared_with_user_id s = u.
Proof.
  unfold Users_can_view_shared_tasks.
  rewrite (shared_with_caller_visible a db (fun s => s_task_id s =? t_id t)).
  rewrite existsb_exists. split.
  - intros (s & Hin & H). apply andb_true_iff in H as [H1 H2].
    apply Nat.eqb_eq in H1. apply uid_is_true in H2.
    exists (s_shared_with_user_id s), s. auto.
  - intros (u & s & -> & Hin & H1 & H2). exists s. split; [assumption|].
    apply andb_true_iff. split; [apply Nat.eqb_eq; assumption|].
    apply uid_is_true. now rewrite H2.
Qed.

(* ================================================================== *)
(** ** Reading tasks                                                    *)
(* ================================================================== *)

(** C1. For every task row T and caller, the SELECT policies of [tasks] allow
    the read if and only if the caller is an authenticated identity U that is
    T's owner or for which a task_shares row with task_id = T.id and
    shared_with_user_id = U exists; without an authenticated identity the read
    is denied for every row. *)
Theorem task_read_iff_owner_or_share :
  (forall (auth_uid : option UUID) (db : Database) (T : tasks_row),
      tasks_select_policy auth_uid db T = true <->
      exists U, auth_uid = Some U /\
                (U = t_user_id T \/
                 exists s, In s (task_shares db) /\
                           s_task_id s = t_id T /\ s_shared_with_user_id s = U))
  /\ (forall (db : Database) (T : tasks_row),
         tasks_select_policy None db T = false).
Proof.
  split.
  - intros a db T. unfold tasks_select_policy. rewrite orb_true_iff.
    unfold Users_can_view_own_tasks.
    rewrite uid_is_true, Users_can_view_shared_tasks_spec. split.
    + intros [H | (u & s & Ha & Hs)].
      * exists (t_user_id T). auto.
      * exists u. split; [assumption|]. right. exists s. exact Hs.
    + intros (U & Ha & [H | (s & Hs)]).
      * left. now subst.
      * right. exists U, s. auto.
  - intros db T. unfold tasks_select_policy, Users_can_view_own_tasks. simpl.
    unfold Users_can_view_shared_tasks.
    rewrite (shared_with_caller_visible None db (fun s => s_task_id s =? t_id T)).
    induction (task_shares db) as [|s l IH]; simpl; [reflexivity|].
    now rewrite andb_false_r.
Qed.

(* ================================================================== *)
(** ** The status cycle of the task card                                *)
(* ================================================================== *)

(** C10. handleStatusChange maps 'pending' to 'in-progress', 'in-progress' to
    'completed' and 'completed' to 'pending'; applied three times to any of
    the three statuses it gives the status it started from, and not before
    (a cyclic permutation of order 3). *)
Theorem handleStatusChange_cycle :
  handleStatusChange "pending" = Some "in-progress"
  /\ handleStatusChange "in-progress" = Some "completed"
  /\ handleStatusChange "completed" = Some "pending"
  /\ Forall (fun s =>
               exists s1 s2,
                 handleStatusChange s = Some s1 /\ handleStatusChange s1 = Some s2
                 /\ handleStatusChange s2 = Some s
                 /\ s1 <> s /\ s2 <> s /\ In s1 statusOrder /\ In s2 statusOrder)
            statusOrder.
Proof.
  repeat split; try reflexivity.
  unfold statusOrder. repeat constructor.
  - exists "in-progress", "completed". cbn.
    repeat split; try reflexivity; try discriminate; tauto.
  - exists "completed", "pending". cbn.
    repeat split; try reflexivity; try discriminate; tauto.
  - exists "pending", "in-progress". cbn.
    repeat split; try reflexivity; try discriminate; tauto.
Qed.

(* ================================================================== *)
(** ** Sharing                                                          *)
(* ================================================================== *)

Lemma select_profile_no_match (a : option UUID) (db : Database) (E : string) :
  (forall p, In p (profiles db) -> p_email p <> E) ->
  select_profile_by_email a db E = Err NoRows.
Proof.
  intros H. unfold select_profile_by_email.
  replace (filter (fun p => String.eqb (p_email p) E)
                  (filter Users_can_view_all_profiles (profiles db)))
    with (@nil profiles_row); [reflexivity|].
  symmetry. apply filter_nil_iff. intros p Hp.
  apply filter_In in Hp as [Hp _].
  apply String.eqb_neq. now apply H.
Qed.

(** C6. For every email address E that no profiles row holds, shareTask
    raises the error "User not found with this email address" and inserts no
    task_shares row: the database and the displayed list are left as they
    were. *)
Theorem shareTask_unknown_email_not_found
        (user : option UUID) (net : Net) (db : Database) (st : State)
        (new_id taskId : UUID) (E permission : string) :
  (forall p, In p (profiles db) -> p_email p <> E) ->
  let o := shareTask user net db st new_id taskId E permission in
  out_toasts o = [toast_error "User not found with this email address"]
  /\ reports_success (out_toasts o) = false
  /\ task_shares (out_db o) = task_shares db
  /\ out_db o = db
  /\ out_state o = st.
Proof.
  intros H. unfold shareTask.
  rewrite (select_profile_no_match user db E H).
  destruct (up_profiles net); simpl; repeat split; reflexivity.
Qed.

Lemma shareTask_unknown_email_not_found_witness :
  (forall p, In p (profiles Scenario.db_task) -> p_email p <> "nobody@nowhere.test")
  /\ out_db (shareTask (Some Scenario.alice) all_up Scenario.db_task initial_state
                       20 10 "nobody@nowhere.test" "view") = Scenario.db_task.
Proof.
  assert (H : forall p, In p (profiles Scenario.db_task) ->
                        p_email p <> "nobody@nowhere.test").
  { intros p [<- | [<- | []]]; discriminate. }
  split; [exact H|].
  apply (shareTask_unknown_email_not_found
           (Some Scenario.alice) all_up Scenario.db_task initial_state
           20 10 "nobody@nowhere.test" "view" H).
Defined.

(* ================================================================== *)
(** ** Deleting                                                         *)
(* ================================================================== *)

Lemma out_db_deleteTask (user : option UUID) (net : Net) (db : Database) (st : State)
      (T : UUID) :
  out_db (deleteTask user net db st T) =
  if up_mutation net
  then mk_db (auth_users db) (profiles db)
             (filter (fun t => negb (delete_target user db T t)) (tasks db))
             (filter (fun s => negb (existsb (Nat.eqb (s_task_id s))
                                            (map t_id (filter (delete_target user db T)
                                                              (tasks db)))))
                     (task_shares db))
  else db.
Proof.
  unfold deleteTask, request, delete_tasks.
  destruct (up_mutation net); [|reflexivity].
  destruct (fetchTasks user net _ st); reflexivity.
Qed.

(** The owner's deleteTask does remove the task (ids of [tasks] distinct, the
    provider answering). *)
Lemma deleteTask_by_owner_removes
      (u : UUID) (net : Net) (db : Database) (st : State) (t : tasks_row) :
  up_mutation net = true ->
  NoDup (map t_id (tasks db)) ->
  In t (tasks db) -> t_user_id t = u ->
  has_task (out_db (deleteTask (Some u) net db st (t_id t))) (t_id t) = false.
Proof.
  intros Hup Hpk Hin Hown. rewrite out_db_deleteTask, Hup.
  unfold has_task. simpl.
  destruct (existsb _ _) eqn:E; [|reflexivity].
  exfalso. apply existsb_exists in E as (x & Hx & Hid).
  apply filter_In in Hx as [Hx Hkeep]. apply Nat.eqb_eq in Hid.
  assert (x = t) as -> by (eapply task_id_determines_row; eassumption).
  apply negb_true_iff in Hkeep.
  unfold delete_target, Users_can_delete_own_tasks, tasks_select_policy,
    Users_can_view_own_tasks in Hkeep.
  rewrite Hown in Hkeep. simpl in Hkeep.
  rewrite !Nat.eqb_refl in Hkeep. discriminate.
Qed.

(** C7. For every task T: when deleteTask removes T (a row with id T was in
    [tasks] before the call and none is after it), no task_shares row that
    references T remains. *)
Theorem deleteTask_cascades_to_shares
        (user : option UUID) (net : Net) (db : Database) (st : State) (T : UUID) :
  has_task db T = true ->
  has_task (out_db (deleteTask user net db st T)) T = false ->
  shares_of_task (out_db (deleteTask user net db st T)) T = []
  /\ (forall s, In s (task_shares (out_db (deleteTask user net db st T))) ->
                s_task_id s <> T).
Proof.
  intros Hbefore Hafter.
  rewrite out_db_deleteTask in *.
  destruct (up_mutation net); [|congruence].
  (* some row with id T was a target of the DELETE *)
  assert (Hgone : In T (map t_id (filter (delete_target user db T) (tasks db)))).
  { unfold has_task in Hbefore, Hafter. simpl in Hafter.
    apply existsb_exists in Hbefore as (t & Hin & Hid).
    apply Nat.eqb_eq in Hid.
    destruct (delete_target user db T t) eqn:Ht.
    - apply in_map_iff. exists t. split; [assumption|].
      apply filter_In. auto.
    - exfalso.
      assert (Hex : existsb (fun t0 => t_id t0 =? T)
                      (filter (fun t0 => negb (delete_target user db T t0)) (tasks db))
                    = true).
      { apply existsb_exists. exists t. split.
        - apply filter_In. split; [assumption|]. now rewrite Ht.
        - now apply Nat.eqb_eq. }
      congruence. }
  assert (Hall : forall s,
             In s (filter (fun s => negb (existsb (Nat.eqb (s_task_id s))
                                            (map t_id (filter (delete_target user db T)
                                                              (tasks db)))))
                          (task_shares db)) ->
             s_task_id s <> T).
  { intros s Hs HT. apply filter_In in Hs as [_ Hs].
    apply negb_true_iff in Hs.
    assert (existsb (Nat.eqb (s_task_id s))
                    (map t_id (filter (delete_target user db T) (tasks db))) = true).
    { apply existsb_exists. exists T. split; [assumption|].
      apply Nat.eqb_eq. assumption. }
    congruence. }
  split.
  - unfold shares_of_task. simpl. apply filter_nil_iff.
    intros s Hs. apply Nat.eqb_neq. now apply Hall.
  - simpl. exact Hall.
Qed.

Lemma deleteTask_cascades_to_shares_witness :
  has_task Scenario.db_shared_view 10 = true
  /\ has_task (out_db (deleteTask (Some Scenario.alice) all_up
                                  Scenario.db_shared_view initial_state 10)) 10 = false
  /\ shares_of_task (out_db (deleteTask (Some Scenario.alice) all_up
                                        Scenario.db_shared_view initial_state 10)) 10 = [].
Proof.
  split; [reflexivity|]. split; [reflexivity|].
  apply (deleteTask_cascades_to_shares (Some Scenario.alice) all_up
           Scenario.db_shared_view initial_state 10); reflexivity.
Defined.

(* ================================================================== *)
(** ** Sharing a task that is already shared with the recipient         *)
(* ================================================================== *)

Lemma reports_success_snoc (ts : list toast_props) (d : string) :
  reports_success (ts ++ [toast_success d]) = true.
Proof.
  unfold reports_success. rewrite existsb_app. simpl. now rewrite orb_true_r.
Qed.

(** UNIQUE(task_id, shared_with_user_id) refuses a second row for a pair. *)
Lemma insert_share_existing_pair (a : option UUID) (db : Database) (new_id T R : UUID)
      (by_id : option UUID) (permission : string) :
  existsb (same_share_key T R) (task_shares db) = true ->
  exists e, insert_share a db new_id (mk_share_insert T by_id R permission) = Err e.
Proof.
  intros H. unfold insert_share. simpl.
  destruct (Users_can_create_shares_for_their_own_tasks a db T); [|eauto].
  destruct by_id; [|eauto].
  destruct (check_permission permission); [|eauto].
  destruct (negb (existsb (fun s => s_id s =? new_id) (task_shares db))); [|eauto].
  rewrite H. simpl. eauto.
Qed.

Lemma one_row_per_pair (l : list task_shares_row) (T R : UUID) :
  NoDup (map share_key l) ->
  (exists s, In s l /\ s_task_id s = T /\ s_shared_with_user_id s = R) ->
  List.length (filter (same_share_key T R) l) = 1.
Proof.
  induction l as [|a l IH]; intros Hnd (s & Hin & HT & HR).
  - destruct Hin.
  - simpl in Hnd. inversion Hnd as [|? ? Hnotin Hnd']; subst.
    simpl. destruct (same_share_key (s_task_id s) (s_shared_with_user_id s) a) eqn:Ea.
    + simpl. f_equal.
      replace (filter (same_share_key (s_task_id s) (s_shared_with_user_id s)) l)
        with (@nil task_shares_row); [reflexivity|].
      symmetry. apply filter_nil_iff. intros x Hx.
      destruct (same_share_key (s_task_id s) (s_shared_with_user_id s) x) eqn:Ex;
        [|reflexivity].
      exfalso. apply Hnotin.
      unfold same_share_key in Ea, Ex.
      apply andb_true_iff in Ea as [Ea1 Ea2]. apply andb_true_iff in Ex as [Ex1 Ex2].
      apply Nat.eqb_eq in Ea1, Ea2, Ex1, Ex2.
      apply in_map_iff. exists x. split; [|assumption].
      unfold share_key. congruence.
    + apply IH; [assumption|].
      destruct Hin as [-> | Hin].
      * unfold same_share_key in Ea. rewrite !Nat.eqb_refl in Ea. discriminate.
      * exists s. auto.
Qed.

(** C2, as the code has it.  When a task_shares row for (T, R) exists and the
    address resolves to R, shareTask fails: the insert is refused, the toast
    "Failed to share task" is raised, and the database and the displayed
    list are left as they were.  With the pairs of the table distinct before
    the call, there is still exactly one row for (T, R) after it (the old
    one, its permission untouched): the call does not duplicate the grant. *)
Theorem shareTask_existing_pair_rejected
        (user : option UUID) (net : Net) (db : Database) (st : State)
        (new_id T R : UUID) (E permission : string) :
  up_profiles net = true ->
  select_profile_by_email user db E = Ok R ->
  NoDup (map share_key (task_shares db)) ->
  (exists s, In s (task_shares db) /\ s_task_id s = T /\ s_shared_with_user_id s = R) ->
  let o := shareTask user net db st new_id T E permission in
  out_toasts o = [toast_error "Failed to share task"]
  /\ reports_success (out_toasts o) = false
  /\ out_db o = db
  /\ out_state o = st
  /\ List.length (shares_of_pair (out_db o) T R) = 1.
Proof.
  intros Hup Hsel Hnd Hex.
  assert (Hkey : existsb (same_share_key T R) (task_shares db) = true).
  { destruct Hex as (s & Hin & HT & HR). apply existsb_exists. exists s.
    split; [assumption|]. unfold same_share_key. subst. now rewrite !Nat.eqb_refl. }
  destruct (insert_share_existing_pair user db new_id T R user permission Hkey)
    as [e He].
  assert (Ho : shareTask user net db st new_id T E permission
               = mk_outcome db st [toast_error "Failed to share task"]).
  { unfold shareTask. rewrite Hup, Hsel. simpl. rewrite He.
    destruct (up_mutation net); reflexivity. }
  cbv zeta. rewrite Ho. simpl. repeat split.
  now apply one_row_per_pair.
Qed.

Lemma shareTask_existing_pair_rejected_witness :
  List.length
    (shares_of_pair
       (out_db (shareTask (Some Scenario.alice) all_up Scenario.db_shared_view
                          initial_state 21 10 Scenario.bob_email "edit"))
       10 Scenario.bob) = 1.
Proof.
  apply (shareTask_existing_pair_rejected
           (Some Scenario.alice) all_up Scenario.db_shared_view initial_state
           21 10 Scenario.bob Scenario.bob_email "edit").
  - reflexivity.
  - reflexivity.
  - repeat constructor. simpl. tauto.
  - exists (mk_share 20 10 Scenario.alice Scenario.bob "view").
    simpl. auto.
Defined.

(** C2, as stated, fails.  Alice shares "Write report" with Bob at 'view'
    (the call succeeds), then again at 'edit': the second call raises
    "Failed to share task", reports no success, and the one row for the pair
    still says 'view'. *)
Lemma reshare_fails_and_keeps_old_permission :
  let first := shareTask (Some Scenario.alice) all_up Scenario.db_task initial_state
                         20 10 Scenario.bob_email "view" in
  let second := shareTask (Some Scenario.alice) all_up (out_db first) (out_state first)
                          21 10 Scenario.bob_email "edit" in
  reports_success (out_toasts first) = true
  /\ out_db first = Scenario.db_shared_view
  /\ out_toasts second = [toast_error "Failed to share task"]
  /\ reports_success (out_toasts second) = false
  /\ map s_permission (shares_of_pair (out_db second) 10 Scenario.bob) = ["view"].
Proof. vm_compute. repeat split; reflexivity. Qed.

(** shareTask never leaves two rows for one (task, recipient) pair. *)
Lemma shareTask_keeps_pairs_distinct
      (user : option UUID) (net : Net) (db : Database) (st : State)
      (new_id T : UUID) (E permission : string) :
  NoDup (map share_key (task_shares db)) ->
  NoDup (map share_key
             (task_shares (out_db (shareTask user net db st new_id T E permission)))).
Proof.
  intros Hnd. unfold shareTask.
  destruct (request (up_profiles net) (select_profile_by_email user db E))
    as [R|]; [|assumption].
  unfold request. destruct (up_mutation net); [|assumption].
  unfold insert_share. simpl.
  destruct (Users_can_create_shares_for_their_own_tasks user db T); [|assumption].
  destruct user as [u|]; [|assumption]. simpl.
  destruct (check_permission permission); [|assumption].
  destruct (negb (existsb (fun s => s_id s =? new_id) (task_shares db)));
    [|assumption].
  destruct (existsb (same_share_key T R) (task_shares db)) eqn:Hk; [assumption|].
  simpl.
  destruct (has_task db T && has_profile db u && has_profile db R); [|assumption].
  match goal with |- context [fetchTasks ?a ?b ?c ?d] =>
    destruct (fetchTasks a b c d) as [st' ts] end.
  simpl. rewrite map_app. simpl.
  apply NoDup_app; [assumption | repeat constructor; simpl; tauto |].
  intros k Hk1 [<- | []].
  apply in_map_iff in Hk1 as (s0 & Hs & Hin).
  assert (existsb (same_share_key T R) (task_shares db) = true).
  { apply existsb_exists. exists s0. split; [assumption|].
    unfold share_key in Hs. injection Hs as H1 H2.
    unfold same_share_key. rewrite H1, H2, !Nat.eqb_refl. reflexivity. }
  congruence.
Qed.

(* ================================================================== *)
(** ** Updating a task the caller may not update                        *)
(* ================================================================== *)

(** An UPDATE whose WHERE clause and policies leave no row touches nothing
    and is not an error. *)
Lemma update_tasks_no_target (a : option UUID) (db : Database) (T : UUID)
      (u : task_update) :
  (forall t, In t (tasks db) -> t_id t = T -> tasks_update_policy a db t = false) ->
  update_tasks a db T u = Ok db.
Proof.
  intros H.
  assert (Hno : forall t, In t (tasks db) -> update_target a db T t = false).
  { intros t Hin. unfold update_target.
    destruct (t_id t =? T) eqn:E; [|reflexivity].
    apply Nat.eqb_eq in E. now rewrite (H t Hin E). }
  unfold update_tasks.
  replace (filter (update_target a db T) (tasks db)) with (@nil tasks_row)
    by (symmetry; now apply filter_nil_iff).
  simpl. rewrite (map_if_false _ _ _ Hno). now rewrite db_eta.
Qed.

(** A caller who is not the owner and whose shares on the task all say
    something else than 'edit' is denied by the UPDATE policies. *)
Lemma view_only_share_is_denied (a : option UUID) (db : Database) (t : tasks_row) :
  uid_is a (t_user_id t) = false ->
  (forall s, In s (task_shares db) -> s_task_id s = t_id t ->
             uid_is a (s_shared_with_user_id s) = true -> s_permission s <> "edit") ->
  tasks_update_policy a db t = false.
Proof.
  intros Hown Hview. unfold tasks_update_policy, Users_can_update_own_tasks.
  rewrite Hown. simpl.
  unfold Users_can_update_shared_tasks_with_edit_permission.
  destruct (existsb _ (visible_task_shares a db)) eqn:E; [|reflexivity].
  exfalso. apply existsb_exists in E as (s & Hin & Hs).
  apply filter_In in Hin as [Hin _].
  apply andb_true_iff in Hs as [Hs Hedit]. apply andb_true_iff in Hs as [Hid Hw].
  apply Nat.eqb_eq in Hid. apply String.eqb_eq in Hedit.
  exact (Hview s Hin Hid Hw Hedit).
Qed.

(** C3, as the code has it.  When the UPDATE policies deny the caller on
    every row with id T (which includes: no row with id T exists), and the
    provider answers, updateTask changes nothing in the database; the
    statement touches no row and is no error, so the call goes on to refresh
    the list and raises "Task updated successfully", not an error. *)
Theorem updateTask_denied_changes_nothing
        (user : option UUID) (net : Net) (db : Database) (st : State)
        (T : UUID) (updates : task_update) :
  up_mutation net = true ->
  (forall t, In t (tasks db) -> t_id t = T -> tasks_update_policy user db t = false) ->
  let o := updateTask user net db st T updates in
  out_db o = db
  /\ out_state o = fst (fetchTasks user net db st)
  /\ out_toasts o = (snd (fetchTasks user net db st)
                     ++ [toast_success "Task updated successfully"])%list
  /\ reports_success (out_toasts o) = true
  /\ ~ In (toast_error "Failed to update task") (out_toasts o).
Proof.
  intros Hup Hdenied. unfold updateTask.
  rewrite Hup. simpl. rewrite (update_tasks_no_target user db T updates Hdenied).
  destruct (fetchTasks user net db st) as [st' ts] eqn:Ef. simpl.
  repeat split.
  - apply reports_success_snoc.
  - intros Hin. apply in_app_or in Hin as [Hin | [Hin | []]]; [|discriminate].
    unfold fetchTasks in Ef.
    destruct user as [uid|]; [|injection Ef as _ <-; destruct Hin].
    destruct (request (up_owned net) _); [|injection Ef as _ <-; destruct Hin as [H|[]]; discriminate].
    destruct (request (up_shared net) _); [|injection Ef as _ <-; destruct Hin as [H|[]]; discriminate].
    injection Ef as _ <-. destruct Hin.
Qed.

Lemma updateTask_denied_changes_nothing_witness :
  out_db (updateTask (Some Scenario.bob) all_up Scenario.db_shared_view initial_state
                     10 Scenario.rename) = Scenario.db_shared_view.
Proof.
  apply (updateTask_denied_changes_nothing
           (Some Scenario.bob) all_up Scenario.db_shared_view initial_state
           10 Scenario.rename).
  - reflexivity.
  - intros t [<- | []] _. reflexivity.
Defined.

(** C3, as stated, fails.  Bob holds only a 'view' share on "Write report":
    his updateTask raises "Task updated successfully" and no error; so does
    Alice's updateTask on the id 99, which no task has.  (Nothing is changed
    in either case.) *)
Lemma updateTask_denied_or_missing_reports_success :
  let denied := updateTask (Some Scenario.bob) all_up Scenario.db_shared_view
                           initial_state 10 Scenario.rename in
  let missing := updateTask (Some Scenario.alice) all_up Scenario.db_shared_view
                            initial_state 99 Scenario.rename in
  tasks_update_policy (Some Scenario.bob) Scenario.db_shared_view Scenario.write_report
  = false
  /\ out_toasts denied = [toast_success "Task updated successfully"]
  /\ reports_error (out_toasts denied) = false
  /\ has_task Scenario.db_shared_view 99 = false
  /\ out_toasts missing = [toast_success "Task updated successfully"]
  /\ reports_error (out_toasts missing) = false.
Proof. vm_compute. repeat split; reflexivity. Qed.

(* ================================================================== *)
(** ** Creating a task                                                  *)
(* ================================================================== *)

(** createTask does not look at the title: a signed-in caller with a profile,
    admissible priority and status and a fresh id gets the row inserted,
    whatever the title, the empty one included. *)
Lemma createTask_accepts_any_title
      (u : UUID) (net : Net) (db : Database) (st : State) (new_id : UUID)
      (taskData : task_data) :
  up_mutation net = true ->
  has_profile db u = true ->
  has_task db new_id = false ->
  check_priority (td_priority taskData) = true ->
  check_status (td_status taskData) = true ->
  let o := createTask (Some u) net db st new_id taskData in
  tasks (out_db o)
  = (tasks db ++ [mk_task new_id u (td_title taskData) (td_description taskData)
                          (td_due_date taskData) (td_priority taskData)
                          (td_status taskData)])%list
  /\ reports_success (out_toasts o) = true.
Proof.
  intros Hup Hprof Hfresh Hprio Hstat. unfold createTask, insert_task.
  rewrite Hup. simpl.
  unfold Users_can_insert_own_tasks, tasks_select_policy, Users_can_view_own_tasks.
  simpl. rewrite Nat.eqb_refl, Hprio, Hstat, Hfresh, Hprof. simpl.
  match goal with |- context [fetchTasks ?a ?b ?c ?d] =>
    destruct (fetchTasks a b c d) as [st' ts] end.
  simpl. split; [reflexivity | apply reports_success_snoc].
Qed.

(** C5, as the code has it.  Without a signed-in user createTask returns at
    once: nothing is inserted, the displayed list is untouched and no toast
    is raised.  A title that is blank after trimming never reaches
    createTask from the page: handleSubmit of the form returns before
    onSubmit, again with nothing inserted and no toast. *)
Theorem createTask_guards_are_silent
        (user : option UUID) (net : Net) (db : Database) (st : State)
        (new_id : UUID) (f : form) (taskData : task_data) :
  user = None \/ trim (title f) = "" ->
  submitCreateTask user net db st new_id f = mk_outcome db st []
  /\ createTask None net db st new_id taskData = mk_outcome db st [].
Proof.
  intros H. split; [|reflexivity].
  unfold submitCreateTask, handleSubmit.
  destruct (String.eqb (trim (title f)) "") eqn:E; simpl; [reflexivity|].
  destruct H as [-> | H]; [reflexivity|].
  rewrite H in E. discriminate.
Qed.

Lemma createTask_guards_are_silent_witness :
  trim (title (mk_form "   " "notes" None "medium" "pending")) = ""
  /\ submitCreateTask (Some Scenario.alice) all_up Scenario.db_users initial_state 10
                      (mk_form "   " "notes" None "medium" "pending")
     = mk_outcome Scenario.db_users initial_state [].
Proof.
  split; [reflexivity|].
  apply (createTask_guards_are_silent
           (Some Scenario.alice) all_up Scenario.db_users initial_state 10
           (mk_form "   " "notes" None "medium" "pending") Scenario.untitled).
  right. reflexivity.
Defined.

(** C5, as stated, fails.  createTask with the empty title, called by the
    signed-in Alice, inserts the task and raises "Task created successfully";
    createTask without a user raises no toast at all, so no error is
    surfaced. *)
Lemma createTask_takes_empty_title_and_is_silent_without_user :
  let o := createTask (Some Scenario.alice) all_up Scenario.db_users initial_state
                      10 Scenario.untitled in
  td_title Scenario.untitled = ""
  /\ out_toasts o = [toast_success "Task created successfully"]
  /\ tasks (out_db o) = [mk_task 10 Scenario.alice "" None None "medium" "pending"]
  /\ out_toasts (createTask None all_up Scenario.db_users initial_state
                            10 Scenario.untitled) = [].
Proof. vm_compute. repeat split; reflexivity. Qed.

(* ================================================================== *)
(** ** The constraints of the profiles table                            *)
(* ================================================================== *)

Lemma profiles_insert_row_ok (db db' : Database) (id : UUID) (email : option string)
      (full_name avatar_url : option string) :
  profiles_insert_row db id email full_name avatar_url = Ok db' ->
  exists e, email = Some e
            /\ has_profile db id = false
            /\ profiles db' = (profiles db ++ [mk_profile id e full_name avatar_url])%list.
Proof.
  unfold profiles_insert_row. destruct email as [e|]; [|discriminate].
  destruct (has_profile db id); simpl; [discriminate|].
  destruct (existsb (Nat.eqb id) (auth_users db)); [|discriminate].
  intros [= <-]. exists e. auto.
Qed.

(** C9, as the schema has it.  The profiles table requires the email and
    keeps the id unique: an insert that is accepted, whether issued by a
    caller or by the trigger handle_new_user, supplied an email, which the
    new row holds, and leaves the ids of the table pairwise distinct.
    (Nothing is enforced about two rows holding the same email.) *)
Theorem profiles_require_email_and_unique_id
        (auth_uid : option UUID) (db db' : Database) (id : UUID)
        (email full_name avatar_url : option string) :
  NoDup (map p_id (profiles db)) ->
  insert_profile auth_uid db id email full_name avatar_url = Ok db'
  \/ handle_new_user db (mk_auth_user id email full_name avatar_url) = Ok db' ->
  (exists e, email = Some e /\ In (mk_profile id e full_name avatar_url) (profiles db'))
  /\ NoDup (map p_id (profiles db')).
Proof.
  intros Hnd H.
  assert (Hrow : profiles_insert_row db id email full_name avatar_url = Ok db').
  { destruct H as [H | H].
    - unfold insert_profile in H.
      destruct (Users_can_insert_own_profile auth_uid id); [assumption | discriminate].
    - exact H. }
  apply profiles_insert_row_ok in Hrow as (e & -> & Hfresh & Hp).
  rewrite Hp. split.
  - exists e. split; [reflexivity|]. apply in_or_app. right. now left.
  - rewrite map_app. simpl. apply NoDup_app; [assumption | repeat constructor; simpl; tauto|].
    intros k Hk [<- | []].
    apply in_map_iff in Hk as (p & Hid & Hin).
    unfold has_profile in Hfresh.
    assert (existsb (fun p => p_id p =? id) (profiles db) = true).
    { apply existsb_exists. exists p. split; [assumption|]. now apply Nat.eqb_eq. }
    congruence.
Qed.

Lemma profiles_require_email_and_unique_id_witness :
  NoDup (map p_id (profiles
     (mk_db [Scenario.alice; Scenario.bob]
            [mk_profile Scenario.alice Scenario.alice_email None None;
             mk_profile Scenario.bob Scenario.bob_email None None] [] []))).
Proof.
  apply (profiles_require_email_and_unique_id
           (Some Scenario.bob)
           (mk_db [Scenario.alice; Scenario.bob]
                  [mk_profile Scenario.alice Scenario.alice_email None None] [] [])
           _ Scenario.bob (Some Scenario.bob_email) None None).
  - repeat constructor. simpl. tauto.
  - left. reflexivity.
Defined.

(** An insert without an email is rejected on both paths. *)
Lemma profiles_insert_without_email_rejected (auth_uid : option UUID) (db : Database)
      (id : UUID) (full_name avatar_url : option string) :
  is_ok (insert_profile auth_uid db id None full_name avatar_url) = false
  /\ handle_new_user db (mk_auth_user id None full_name avatar_url)
     = Err NotNullViolation.
Proof.
  split; [|reflexivity].
  unfold insert_profile. destruct (Users_can_insert_own_profile auth_uid id); reflexivity.
Qed.

(** Neither can an update take the email away from a row it touches. *)
Lemma update_profile_null_email_rejected (u : UUID) (db : Database)
      (full_name avatar_url : option (option string)) :
  has_profile db u = true ->
  update_profile (Some u) db u (mk_profile_update (Some None) full_name avatar_url)
  = Err NotNullViolation.
Proof.
  intros H. unfold update_profile. simpl.
  replace (existsb _ (profiles db)) with true; [reflexivity|].
  symmetry. unfold has_profile in H.
  apply existsb_exists in H as (p & Hin & Hid).
  apply existsb_exists. exists p. split; [assumption|].
  unfold Users_can_update_own_profile, Users_can_view_all_profiles. simpl.
  apply Nat.eqb_eq in Hid. rewrite Hid, !Nat.eqb_refl. reflexivity.
Qed.

(** C9, as stated, fails: two profiles rows may hold the same email.  Bob's
    update of his own profile to Alice's address is accepted, and so is the
    sign-up of a third identity with Alice's address; both leave two rows
    with one email. *)
Lemma profiles_email_not_unique :
  update_profile (Some Scenario.bob) Scenario.db_users Scenario.bob
                 (mk_profile_update (Some (Some Scenario.alice_email)) None None)
  = Ok Scenario.db_same_email
  /\ map p_email (profiles Scenario.db_same_email)
     = [Scenario.alice_email; Scenario.alice_email]
  /\ ~ NoDup (map p_email (profiles Scenario.db_same_email))
  /\ (exists db', on_auth_user_created Scenario.db_users
                    (mk_auth_user 3 (Some Scenario.alice_email) None None) = Ok db'
                  /\ ~ NoDup (map p_email (profiles db'))).
Proof.
  split; [reflexivity|]. split; [reflexivity|]. split.
  - intros H. inversion H as [|? ? Hn _]. apply Hn. now left.
  - eexists. split; [reflexivity|].
    intros H. inversion H as [|? ? Hn _]. apply Hn. simpl. tauto.
Qed.

(* ================================================================== *)
(** ** Failed mutations and the displayed list                          *)
(* ================================================================== *)

Ltac after_refresh :=
  match goal with
  | |- context [fetchTasks ?a ?b ?c ?d] =>
      destruct (fetchTasks a b c d) as [? ?]; simpl;
      rewrite reports_success_snoc; discriminate
  end.

(** C8. For every mutation (createTask, updateTask, deleteTask, shareTask)
    that fails, which is to say every call that does not raise its "Success"
    toast, the list of tasks displayed to the caller (the hook state) is what
    it was before the call, and so is the database: nothing is applied in
    part. *)
Theorem failed_mutation_leaves_view_unchanged
        (user : option UUID) (net : Net) (db : Database) (st : State) (m : mutation) :
  reports_success (out_toasts (run user net db st m)) = false ->
  st_tasks (out_state (run user net db st m)) = st_tasks st
  /\ out_state (run user net db st m) = st
  /\ out_db (run user net db st m) = db.
Proof.
  destruct m as [new_id taskData | taskId updates | taskId | new_id taskId email permission];
    simpl.
  - unfold createTask. destruct user as [uid|]; [|auto].
    destruct (request (up_mutation net) _) as [[db' row]|]; [|auto].
    after_refresh.
  - unfold updateTask.
    destruct (request (up_mutation net) _) as [db'|]; [|auto].
    after_refresh.
  - unfold deleteTask.
    destruct (request (up_mutation net) _) as [db'|]; [|auto].
    after_refresh.
  - unfold shareTask.
    destruct (request (up_profiles net) _) as [R|]; [|auto].
    destruct (request (up_mutation net) _) as [db'|]; [|auto].
    after_refresh.
Qed.

Lemma failed_mutation_leaves_view_unchanged_witness :
  st_tasks (out_state (run (Some Scenario.bob) all_up Scenario.db_shared_view
                           (mk_state [mk_Task Scenario.write_report None []] false)
                           (ShareTask 21 10 Scenario.alice_email "edit")))
  = [mk_Task Scenario.write_report None []].
Proof.
  apply (failed_mutation_leaves_view_unchanged
           (Some Scenario.bob) all_up Scenario.db_shared_view
           (mk_state [mk_Task Scenario.write_report None []] false)
           (ShareTask 21 10 Scenario.alice_email "edit")).
  reflexivity.
Defined.

(** After any mutation the displayed list is either the one displayed before
    or a complete fetch from the resulting database: never a list patched in
    part. *)
Lemma view_is_old_or_refetched
      (user : option UUID) (net : Net) (db : Database) (st : State) (m : mutation) :
  st_tasks (out_state (run user net db st m)) = st_tasks st
  \/ exists uid, user = Some uid
       /\ st_tasks (out_state (run user net db st m))
          = allTasks (select_owned_tasks user (out_db (run user net db st m)) uid)
                     (select_shared_tasks user (out_db (run user net db st m)) uid).
Proof.
  assert (Hfetch : forall db', st_tasks (fst (fetchTasks user net db' st)) = st_tasks st
            \/ exists uid, user = Some uid
                 /\ st_tasks (fst (fetchTasks user net db' st))
                    = allTasks (select_owned_tasks user db' uid)
                               (select_shared_tasks user db' uid)).
  { intros db'. unfold fetchTasks. destruct user as [uid|]; [|now left].
    unfold request. destruct (up_owned net); [|now left].
    destruct (up_shared net); [|now left].
    right. exists uid. auto. }
  destruct m as [new_id taskData | taskId updates | taskId | new_id taskId email permission];
    simpl.
  - unfold createTask. destruct user as [uid|]; [|now left].
    destruct (request (up_mutation net) _) as [[db' row]|]; [|now left].
    specialize (Hfetch db').
    destruct (fetchTasks (Some uid) net db' st); exact Hfetch.
  - unfold updateTask.
    destruct (request (up_mutation net) _) as [db'|]; [|now left].
    specialize (Hfetch db'). destruct (fetchTasks user net db' st); exact Hfetch.
  - unfold deleteTask.
    destruct (request (up_mutation net) _) as [db'|]; [|now left].
    specialize (Hfetch db'). destruct (fetchTasks user net db' st); exact Hfetch.
  - unfold shareTask.
    destruct (request (up_profiles net) _) as [R|]; [|now left].
    destruct (request (up_mutation net) _) as [db'|]; [|now left].
    specialize (Hfetch db'). destruct (fetchTasks user net db' st); exact Hfetch.
Qed.

(* ================================================================== *)
(** ** The list fetchTasks displays                                     *)
(* ================================================================== *)

Lemma ids_of_select_owned_tasks (a : option UUID) (db : Database) (uid : UUID) :
  map task_id_of (select_owned_tasks a db uid)
  = map t_id (filter (fun t => t_user_id t =? uid) (visible_tasks a db)).
Proof. unfold select_owned_tasks. rewrite map_map. reflexivity. Qed.

Lemma ids_of_select_shared_tasks (a : option UUID) (db : Database) (uid : UUID) :
  map task_id_of (select_shared_tasks a db uid)
  = map t_id (filter (fun t => match inner_shares a db uid t with
                               | [] => false
                               | _ :: _ => true
                               end)
                     (visible_tasks a db)).
Proof. unfold select_shared_tasks. rewrite map_map. reflexivity. Qed.

(** Where the two selects of fetchTasks cannot overlap, the list has no two
    entries with one id: with the ids of [tasks] distinct (its primary key)
    and no share addressed to the owner of its task, the list fetchTasks
    leaves in the hook state has pairwise distinct ids. *)
Lemma fetchTasks_ids_distinct_without_self_share
      (user : option UUID) (net : Net) (db : Database) (st : State) :
  NoDup (map task_id_of (st_tasks st)) ->
  NoDup (map t_id (tasks db)) ->
  (forall t s, In t (tasks db) -> In s (task_shares db) ->
               s_task_id s = t_id t -> s_shared_with_user_id s <> t_user_id t) ->
  NoDup (map task_id_of (st_tasks (fst (fetchTasks user net db st)))).
Proof.
  intros Hst Hpk Hno. unfold fetchTasks.
  destruct user as [uid|]; [|assumption].
  unfold request. destruct (up_owned net); [|assumption].
  destruct (up_shared net); [|assumption].
  simpl. unfold allTasks. rewrite map_app.
  rewrite ids_of_select_owned_tasks, ids_of_select_shared_tasks.
  assert (Hvis : NoDup (map t_id (visible_tasks (Some uid) db))).
  { unfold visible_tasks. now apply task_ids_distinct_filter. }
  apply NoDup_app; try (now apply task_ids_distinct_filter).
  intros k Hown Hsh.
  apply in_map_iff in Hown as (t1 & <- & H1). apply filter_In in H1 as [Hv1 Ho].
  apply in_map_iff in Hsh as (t2 & E & H2). apply filter_In in H2 as [Hv2 Hi].
  assert (t2 = t1) as -> by (eapply task_id_determines_row; eassumption).
  apply Nat.eqb_eq in Ho.
  destruct (inner_shares (Some uid) db uid t1) as [|s l] eqn:Einner; [discriminate|].
  assert (Hs : In s (inner_shares (Some uid) db uid t1)) by (rewrite Einner; now left).
  unfold inner_shares in Hs. apply filter_In in Hs as [Hs Hk].
  apply filter_In in Hs as [Hs _].
  apply andb_true_iff in Hk as [Hk1 Hk2]. apply Nat.eqb_eq in Hk1, Hk2.
  apply filter_In in Hv1 as [Hv1 _].
  apply (Hno t1 s Hv1 Hs Hk1). congruence.
Qed.

(** C4 on the code, at the input where it fails.  Alice shares her own task
    "Write report" with her own address: the policies accept the share, and
    the list fetchTasks then displays to her holds the task twice, once from
    the select of owned tasks and once from the select of shared tasks. *)
Theorem fetchTasks_lists_self_shared_task_twice :
  let shared := shareTask (Some Scenario.alice) all_up Scenario.db_task initial_state
                          20 10 Scenario.alice_email "view" in
  let listed := st_tasks (fst (fetchTasks (Some Scenario.alice) all_up
                                          Scenario.db_self_shared initial_state)) in
  reports_success (out_toasts shared) = true
  /\ out_db shared = Scenario.db_self_shared
  /\ st_tasks (out_state shared) = listed
  /\ map task_id_of listed = [10; 10]
  /\ ~ NoDup (map task_id_of listed).
Proof.
  cbv zeta. split; [reflexivity|]. split; [reflexivity|]. split; [reflexivity|].
  split; [reflexivity|].
  intros H. inversion H as [|? ? Hn _]. apply Hn. now left.
Qed.

(* ================================================================== *)
(** ** Who may update, who may delete                                   *)
(* ================================================================== *)

Lemma edit_share_policy_spec (a : option UUID) (db : Database) (t : tasks_row) :
  Users_can_update_shared_tasks_with_edit_permission a db t = true <->
  exists u s, a = Some u /\ In s (task_shares db) /\ s_task_id s = t_id t
              /\ s_shared_with_user_id s = u /\ s_permission s = "edit".
Proof.
  unfold Users_can_update_shared_tasks_with_edit_permission.
  rewrite existsb_exists. split.
  - intros (s & Hin & H).
    apply filter_In in Hin as [Hin _].
    apply andb_true_iff in H as [H Hp]. apply andb_true_iff in H as [Hid Hw].
    apply Nat.eqb_eq in Hid. apply uid_is_true in Hw. apply String.eqb_eq in Hp.
    exists (s_shared_with_user_id s), s. auto.
  - intros (u & s & -> & Hin & Hid & Hw & Hp). exists s. split.
    + apply filter_In. split; [assumption|].
      unfold Users_can_view_task_shares_for_their_tasks. simpl.
      rewrite Hw, Nat.eqb_refl. apply orb_true_r.
    + simpl. rewrite Hid, Hw, Hp, !Nat.eqb_refl. reflexivity.
Qed.

(** X1. The UPDATE policies of [tasks] allow a caller on a row exactly when
    the caller is an authenticated identity that owns the row or is the
    recipient of a share of it whose permission is 'edit'. *)
Theorem task_update_iff_owner_or_edit_share
        (auth_uid : option UUID) (db : Database) (T : tasks_row) :
  tasks_update_policy auth_uid db T = true <->
  exists U, auth_uid = Some U /\
            (U = t_user_id T \/
             exists s, In s (task_shares db) /\ s_task_id s = t_id T
                       /\ s_shared_with_user_id s = U /\ s_permission s = "edit").
Proof.
  unfold tasks_update_policy, Users_can_update_own_tasks.
  rewrite orb_true_iff, uid_is_true, edit_share_policy_spec. split.
  - intros [H | (u & s & Ha & Hs)].
    + exists (t_user_id T). auto.
    + exists u. split; [assumption|]. right. exists s. exact Hs.
  - intros (U & Ha & [H | (s & Hs)]).
    + left. now subst.
    + right. exists U, s. tauto.
Qed.

(** X2. The rights on a task are nested: whoever may delete a row may update
    it, and whoever may update it may read it. *)
Theorem task_rights_are_nested
        (auth_uid : option UUID) (db : Database) (T : tasks_row) :
  Users_can_delete_own_tasks auth_uid T = true
  \/ tasks_update_policy auth_uid db T = true ->
  tasks_update_policy auth_uid db T = true
  /\ tasks_select_policy auth_uid db T = true.
Proof.
  intros H.
  assert (Hup : tasks_update_policy auth_uid db T = true).
  { destruct H as [H | H]; [|assumption].
    unfold tasks_update_policy, Users_can_update_own_tasks.
    unfold Users_can_delete_own_tasks in H. now rewrite H. }
  split; [assumption|].
  unfold tasks_update_policy in Hup. unfold tasks_select_policy.
  apply orb_true_iff in Hup as [Hown | Hedit]; apply orb_true_iff.
  - left. exact Hown.
  - right. apply edit_share_policy_spec in Hedit as (u & s & Ha & Hin & Hid & Hw & _).
    apply Users_can_view_shared_tasks_spec. exists u, s. auto.
Qed.

Lemma task_rights_are_nested_witness :
  tasks_select_policy (Some Scenario.alice) Scenario.db_shared_view
                      Scenario.write_report = true.
Proof.
  apply (task_rights_are_nested (Some Scenario.alice) Scenario.db_shared_view
                                Scenario.write_report).
  left. reflexivity.
Defined.

(* ================================================================== *)
(** ** What the statements and the four calls can do to the tables      *)
(* ================================================================== *)

Lemma filter_all_kept {A} (keep : A -> bool) (l : list A) :
  (forall x, In x l -> keep x = true) -> filter keep l = l.
Proof.
  intros H. induction l as [|a l IH]; simpl; [reflexivity|].
  rewrite (H a (or_introl eq_refl)). f_equal. apply IH.
  intros x Hx. apply H. now right.
Qed.

Lemma apply_task_update_keys (u : task_update) (t : tasks_row) :
  t_id (apply_task_update u t) = t_id t
  /\ t_user_id (apply_task_update u t) = t_user_id t.
Proof. split; reflexivity. Qed.


Lemma update_tasks_ok (a : option UUID) (db db' : Database) (T : UUID)
      (u : task_update) :
  update_tasks a db T u = Ok db' ->
  db' = mk_db (auth_users db) (profiles db)
              (map (fun t => if update_target a db T t
                             then apply_task_update u t else t) (tasks db))
              (task_shares db)
  /\ (forall t, In t (tasks db) -> update_target a db T t = true ->
                check_priority (t_priority (apply_task_update u t)) = true
                /\ check_status (t_status (apply_task_update u t)) = true).
Proof.
  unfold update_tasks.
  destruct (forallb _ (filter (update_target a db T) (tasks db))); [|discriminate].
  destruct (forallb (fun t => check_priority (t_priority (apply_task_update u t))
                              && check_status (t_status (apply_task_update u t)))
                    (filter (update_target a db T) (tasks db))) eqn:Hck;
    [|discriminate].
  intros [= <-]. split; [reflexivity|].
  intros t Hin Ht. rewrite forallb_forall in Hck.
  apply andb_true_iff. apply Hck. apply filter_In. auto.
Qed.

Lemma insert_task_ok (a : option UUID) (db db' : Database) (new_id : UUID)
      (b : task_insert) (row : tasks_row) :
  insert_task a db new_id b = Ok (db', row) ->
  exists title,
    ti_title b = Some title
    /\ row = mk_task new_id (ti_user_id b) title (ti_description b)
                     (ti_due_date b) (ti_priority b) (ti_status b)
    /\ db' = mk_db (auth_users db) (profiles db) (tasks db ++ [row]) (task_shares db)
    /\ a = Some (ti_user_id b)
    /\ check_priority (ti_priority b) = true /\ check_status (ti_status b) = true
    /\ has_task db new_id = false
    /\ has_profile db (ti_user_id b) = true.
Proof.
  unfold insert_task. destruct (ti_title b) as [title|].
  2:{ destruct (uid_is a (ti_user_id b)); discriminate. }
  unfold Users_can_insert_own_tasks. simpl.
  destruct (uid_is a (ti_user_id b)) eqn:Ha; [|discriminate].
  destruct (check_priority (ti_priority b)) eqn:Hp; [|discriminate].
  destruct (check_status (ti_status b)) eqn:Hs; [|discriminate]. simpl.
  destruct (has_task db new_id) eqn:Hf; [discriminate|]. simpl.
  destruct (has_profile db (ti_user_id b)) eqn:Hpr; [|discriminate].
  destruct (tasks_select_policy a _ _); [|discriminate].
  intros [= <- <-]. exists title. apply uid_is_true in Ha.
  repeat split; auto.
Qed.

Lemma insert_share_ok (a : option UUID) (db db' : Database) (new_id : UUID)
      (b : share_insert) :
  insert_share a db new_id b = Ok db' ->
  exists by_id,
    si_shared_by_user_id b = Some by_id
    /\ db' = mk_db (auth_users db) (profiles db) (tasks db)
                   (task_shares db ++
                    [mk_share new_id (si_task_id b) by_id
                              (si_shared_with_user_id b) (si_permission b)])
    /\ Users_can_create_shares_for_their_own_tasks a db (si_task_id b) = true
    /\ check_permission (si_permission b) = true
    /\ existsb (fun s => s_id s =? new_id) (task_shares db) = false
    /\ existsb (same_share_key (si_task_id b) (si_shared_with_user_id b))
               (task_shares db) = false
    /\ has_task db (si_task_id b) = true
    /\ has_profile db by_id = true
    /\ has_profile db (si_shared_with_user_id b) = true.
Proof.
  unfold insert_share.
  destruct (Users_can_create_shares_for_their_own_tasks a db (si_task_id b)) eqn:Hpol;
    [|discriminate].
  destruct (si_shared_by_user_id b) as [by_id|]; [|discriminate].
  destruct (check_permission (si_permission b)) eqn:Hck; [|discriminate].
  destruct (existsb (fun s => s_id s =? new_id) (task_shares db)) eqn:Hpk;
    [discriminate|]. simpl.
  destruct (existsb (same_share_key _ _) (task_shares db)) eqn:Huq;
    [discriminate|]. simpl.
  destruct (has_task db (si_task_id b)) eqn:Ht; [|discriminate].
  destruct (has_profile db by_id) eqn:Hb; [|discriminate].
  destruct (has_profile db (si_shared_with_user_id b)) eqn:Hw; [|discriminate].
  simpl. intros [= <-]. exists by_id. repeat split; auto.
Qed.

(** Only the owner of the task passes the INSERT policy of task_shares. *)
Lemma create_share_policy_spec (a : option UUID) (db : Database) (T : UUID) :
  Users_can_create_shares_for_their_own_tasks a db T = true <->
  exists u t, a = Some u /\ In t (tasks db) /\ t_id t = T /\ t_user_id t = u.
Proof.
  unfold Users_can_create_shares_for_their_own_tasks.
  rewrite existsb_exists. split.
  - intros (t & Hin & H). apply filter_In in Hin as [Hin _].
    apply andb_true_iff in H as [Hid Ho].
    apply Nat.eqb_eq in Hid. apply uid_is_true in Ho.
    exists (t_user_id t), t. auto.
  - intros (u & t & -> & Hin & Hid & Ho). exists t. split.
    + apply filter_In. split; [assumption|].
      unfold tasks_select_policy, Users_can_view_own_tasks. simpl.
      now rewrite Ho, Nat.eqb_refl.
    + simpl. now rewrite Hid, Ho, !Nat.eqb_refl.
Qed.

(** Each call either leaves the database alone and reports no success, or
    its statement was accepted and it reports success. *)
Lemma createTask_cases (user : option UUID) (net : Net) (db : Database) (st : State)
      (new_id : UUID) (td : task_data) :
  let o := createTask user net db st new_id td in
  (out_db o = db /\ reports_success (out_toasts o) = false)
  \/ (exists u row,
         user = Some u /\ up_mutation net = true
         /\ insert_task user db new_id
              (mk_task_insert (Some (td_title td)) (td_description td)
                              (td_due_date td) (td_priority td) (td_status td) u)
            = Ok (out_db o, row)
         /\ reports_success (out_toasts o) = true).
Proof.
  cbv zeta. unfold createTask. destruct user as [u|]; [|now left].
  unfold request. destruct (up_mutation net); [|now left].
  destruct (insert_task _ _ _ _) as [[db' row]|] eqn:Hins; [|now left].
  right. exists u, row.
  destruct (fetchTasks (Some u) net db' st) as [st' ts]. simpl.
  rewrite reports_success_snoc. repeat split; try reflexivity. exact Hins.
Qed.

Lemma updateTask_cases (user : option UUID) (net : Net) (db : Database) (st : State)
      (T : UUID) (u : task_update) :
  let o := updateTask user net db st T u in
  (out_db o = db /\ reports_success (out_toasts o) = false)
  \/ (up_mutation net = true
      /\ update_tasks user db T u = Ok (out_db o)
      /\ reports_success (out_toasts o) = true).
Proof.
  cbv zeta. unfold updateTask, request. destruct (up_mutation net); [|now left].
  destruct (update_tasks user db T u) as [db'|] eqn:Hupd; [|now left].
  right. destruct (fetchTasks user net db' st) as [st' ts]. simpl.
  rewrite reports_success_snoc. repeat split; reflexivity.
Qed.

Lemma deleteTask_cases (user : option UUID) (net : Net) (db : Database) (st : State)
      (T : UUID) :
  let o := deleteTask user net db st T in
  (out_db o = db /\ reports_success (out_toasts o) = false)
  \/ (up_mutation net = true
      /\ delete_tasks user db T = Ok (out_db o)
      /\ reports_success (out_toasts o) = true).
Proof.
  cbv zeta. unfold deleteTask, request. destruct (up_mutation net); [|now left].
  right. unfold delete_tasks.
  match goal with |- context [fetchTasks ?a ?b ?c ?d] =>
    destruct (fetchTasks a b c d) as [st' ts] end.
  simpl. rewrite reports_success_snoc. repeat split; reflexivity.
Qed.

Lemma shareTask_cases (user : option UUID) (net : Net) (db : Database) (st : State)
      (new_id T : UUID) (E permission : string) :
  let o := shareTask user net db st new_id T E permission in
  (out_db o = db /\ reports_success (out_toasts o) = false)
  \/ (exists R,
         up_profiles net = true /\ up_mutation net = true
         /\ select_profile_by_email user db E = Ok R
         /\ insert_share user db new_id (mk_share_insert T user R permission)
            = Ok (out_db o)
         /\ reports_success (out_toasts o) = true).
Proof.
  cbv zeta. unfold shareTask, request. destruct (up_profiles net); [|now left].
  destruct (select_profile_by_email user db E) as [R|]; [|now left].
  destruct (up_mutation net); [|now left].
  destruct (insert_share _ _ _ _) as [db'|] eqn:Hins; [|now left].
  right. exists R. destruct (fetchTasks user net db' st) as [st' ts]. simpl.
  rewrite reports_success_snoc. repeat split; try reflexivity. exact Hins.
Qed.



Lemma policies_deny_without_identity (db : Database) (t : tasks_row) :
  tasks_update_policy None db t = false
  /\ Users_can_delete_own_tasks None t = false.
Proof.
  split; [|reflexivity].
  destruct (tasks_update_policy None db t) eqn:E; [|reflexivity].
  unfold tasks_update_policy in E. apply orb_true_iff in E as [E | E].
  - discriminate.
  - apply edit_share_policy_spec in E as (u & s & Ha & _). discriminate.
Qed.

Lemma delete_tasks_no_target (a : option UUID) (db : Database) (T : UUID) :
  (forall t, In t (tasks db) -> delete_target a db T t = false) ->
  delete_tasks a db T = Ok db.
Proof.
  intros H. unfold delete_tasks.
  replace (filter (delete_target a db T) (tasks db)) with (@nil tasks_row)
    by (symmetry; now apply filter_nil_iff).
  simpl. rewrite !filter_all_kept.
  - now rewrite db_eta.
  - reflexivity.
  - intros t Ht. now rewrite (H t Ht).
Qed.

Lemma delete_target_needs_owner (a : option UUID) (db : Database) (T : UUID)
      (t : tasks_row) :
  delete_target a db T t = true -> t_id t = T /\ a = Some (t_user_id t).
Proof.
  unfold delete_target, Users_can_delete_own_tasks. intros H.
  apply andb_true_iff in H as [H _]. apply andb_true_iff in H as [Hid Ho].
  apply Nat.eqb_eq in Hid. apply uid_is_true in Ho. auto.
Qed.

Lemma insert_share_not_owner (a : option UUID) (db : Database) (new_id : UUID)
      (b : share_insert) :
  (forall t, In t (tasks db) -> t_id t = si_task_id b -> a <> Some (t_user_id t)) ->
  insert_share a db new_id b = Err RlsViolation.
Proof.
  intros H. unfold insert_share.
  destruct (Users_can_create_shares_for_their_own_tasks a db (si_task_id b)) eqn:E;
    [|reflexivity].
  apply create_share_policy_spec in E as (u & t & Ha & Hin & Hid & Ho).
  exfalso. apply (H t Hin Hid). now rewrite Ho.
Qed.

(* ================================================================== *)
(** ** updateTask                                                       *)
(* ================================================================== *)




(* ================================================================== *)
(** ** deleteTask                                                       *)
(* ================================================================== *)

(** X5. deleteTask by anyone but the owner of the task (a holder of an
    'edit' share included, and a visitor without identity) removes nothing:
    the database is unchanged.  No error is signalled for it: the call
    reports success whenever the provider answered. *)
Theorem deleteTask_by_non_owner_removes_nothing
        (user : option UUID) (net : Net) (db : Database) (st : State) (T : UUID) :
  (forall t, In t (tasks db) -> t_id t = T -> user <> Some (t_user_id t)) ->
  let o := deleteTask user net db st T in
  out_db o = db
  /\ reports_success (out_toasts o) = up_mutation net.
Proof.
  intros Hnot. cbv zeta. unfold deleteTask, request.
  destruct (up_mutation net); [|split; reflexivity].
  rewrite delete_tasks_no_target.
  - destruct (fetchTasks user net db st) as [st' ts]. simpl.
    split; [reflexivity | apply reports_success_snoc].
  - intros t Hin. destruct (delete_target user db T t) eqn:E; [|reflexivity].
    apply delete_target_needs_owner in E as [Hid Ho].
    exfalso. exact (Hnot t Hin Hid Ho).
Qed.

Lemma deleteTask_by_non_owner_removes_nothing_witness :
  out_db (deleteTask (Some Scenario.bob) all_up
            (mk_db [Scenario.alice; Scenario.bob]
                   (profiles Scenario.db_users) [Scenario.write_report]
                   [mk_share 20 10 Scenario.alice Scenario.bob "edit"])
            initial_state 10)
  = mk_db [Scenario.alice; Scenario.bob]
          (profiles Scenario.db_users) [Scenario.write_report]
          [mk_share 20 10 Scenario.alice Scenario.bob "edit"].
Proof.
  apply (deleteTask_by_non_owner_removes_nothing
           (Some Scenario.bob) all_up
           (mk_db [Scenario.alice; Scenario.bob]
                  (profiles Scenario.db_users) [Scenario.write_report]
                  [mk_share 20 10 Scenario.alice Scenario.bob "edit"])
           initial_state 10).
  intros t [<- | []] _. discriminate.
Defined.

(** X6. deleteTask removes nothing but the task with the given id and the
    shares of that task: every other task and every share of another task
    is still there afterwards, nothing is added, and the profiles are
    untouched. *)
Theorem deleteTask_removes_only_that_task
        (user : option UUID) (net : Net) (db : Database) (st : State) (T : UUID) :
  let o := deleteTask user net db st T in
  (forall t, In t (tasks db) -> t_id t <> T -> In t (tasks (out_db o)))
  /\ (forall s, In s (task_shares db) -> s_task_id s <> T ->
                In s (task_shares (out_db o)))
  /\ (forall t, In t (tasks (out_db o)) -> In t (tasks db))
  /\ (forall s, In s (task_shares (out_db o)) -> In s (task_shares db))
  /\ profiles (out_db o) = profiles db.
Proof.
  cbv zeta. rewrite out_db_deleteTask.
  destruct (up_mutation net); [|repeat split; auto]. simpl.
  assert (Hremoved : forall k, In k (map t_id (filter (delete_target user db T)
                                                      (tasks db))) -> k = T).
  { intros k Hk. apply in_map_iff in Hk as (t & <- & Ht).
    apply filter_In in Ht as [_ Ht].
    now apply delete_target_needs_owner in Ht as [Hid _]. }
  repeat split.
  - intros t Hin Hid. apply filter_In. split; [assumption|].
    destruct (delete_target user db T t) eqn:E; [|reflexivity].
    apply delete_target_needs_owner in E as [E _]. contradiction.
  - intros s Hin Hid. apply filter_In. split; [assumption|].
    destruct (existsb _ _) eqn:E; [|reflexivity].
    apply existsb_exists in E as (k & Hk & Heq). apply Nat.eqb_eq in Heq.
    apply Hremoved in Hk. congruence.
  - intros t Ht. now apply filter_In in Ht as [Ht _].
  - intros s Hs. now apply filter_In in Hs as [Hs _].
Qed.

(* ================================================================== *)
(** ** shareTask and createTask                                         *)
(* ================================================================== *)

(** X7. shareTask by anyone but the owner of the task is refused, whatever
    share the caller holds on it: nothing is inserted, the displayed list is
    untouched and no success is reported.  A recipient cannot share on. *)
Theorem shareTask_by_non_owner_is_refused
        (user : option UUID) (net : Net) (db : Database) (st : State)
        (new_id T : UUID) (E permission : string) :
  (forall t, In t (tasks db) -> t_id t = T -> user <> Some (t_user_id t)) ->
  let o := shareTask user net db st new_id T E permission in
  out_db o = db
  /\ out_state o = st
  /\ reports_success (out_toasts o) = false.
Proof.
  intros Hnot. cbv zeta. unfold shareTask.
  destruct (request (up_profiles net) _) as [R|]; [|repeat split; reflexivity].
  unfold request. rewrite insert_share_not_owner by exact Hnot.
  destruct (up_mutation net); repeat split; reflexivity.
Qed.

Lemma shareTask_by_non_owner_is_refused_witness :
  out_db (shareTask (Some Scenario.bob) all_up
            (mk_db [Scenario.alice; Scenario.bob]
                   (profiles Scenario.db_users) [Scenario.write_report]
                   [mk_share 20 10 Scenario.alice Scenario.bob "edit"])
            initial_state 21 10 Scenario.alice_email "edit")
  = mk_db [Scenario.alice; Scenario.bob]
          (profiles Scenario.db_users) [Scenario.write_report]
          [mk_share 20 10 Scenario.alice Scenario.bob "edit"].
Proof.
  apply (shareTask_by_non_owner_is_refused
           (Some Scenario.bob) all_up
           (mk_db [Scenario.alice; Scenario.bob]
                  (profiles Scenario.db_users) [Scenario.write_report]
                  [mk_share 20 10 Scenario.alice Scenario.bob "edit"])
           initial_state 21 10 Scenario.alice_email "edit").
  intros t [<- | []] _. discriminate.
Defined.

(** X8. When shareTask reports success, the caller is a signed-in user who
    owns the task, the address is the email of exactly one profile R, the
    permission is 'view' or 'edit', exactly one row was appended to
    task_shares, for (task, R) with that permission and the caller as
    grantor, and R may from then on read the task. *)
Theorem shareTask_success_grants_read
        (user : option UUID) (net : Net) (db : Database) (st : State)
        (new_id T : UUID) (E permission : string) :
  reports_success
    (out_toasts (shareTask user net db st new_id T E permission)) = true ->
  let o := shareTask user net db st new_id T E permission in
  exists u R,
    user = Some u
    /\ select_profile_by_email user db E = Ok R
    /\ (exists t, In t (tasks db) /\ t_id t = T /\ t_user_id t = u)
    /\ (permission = "view" \/ permission = "edit")
    /\ task_shares (out_db o)
       = (task_shares db ++ [mk_share new_id T u R permission])%list
    /\ tasks (out_db o) = tasks db
    /\ (forall t, In t (tasks (out_db o)) -> t_id t = T ->
                  tasks_select_policy (Some R) (out_db o) t = true).
Proof.
  intros Hok. cbv zeta.
  destruct (shareTask_cases user net db st new_id T E permission)
    as [[_ Hno] | (R & _ & _ & Hsel & Hins & _)]; [congruence|].
  apply insert_share_ok in Hins
    as (by_id & Hby & Hdb & Hpol & Hck & _). simpl in *.
  apply create_share_policy_spec in Hpol as (u & t & Hu & Hin & Hid & Ho).
  assert (by_id = u) as -> by congruence.
  exists u, R. rewrite Hdb. simpl. repeat split; auto.
  - exists t. auto.
  - unfold check_permission in Hck. apply orb_true_iff in Hck as [H | H];
      apply String.eqb_eq in H; auto.
  - intros t' _ Hid'. unfold tasks_select_policy. apply orb_true_iff. right.
    apply Users_can_view_shared_tasks_spec.
    exists R, (mk_share new_id T u R permission). simpl.
    repeat split; auto. apply in_or_app. right. now left.
Qed.

Lemma shareTask_success_grants_read_witness :
  exists u R,
    Some Scenario.alice = Some u
    /\ select_profile_by_email (Some Scenario.alice) Scenario.db_task
                               Scenario.bob_email = Ok R
    /\ (exists t, In t (tasks Scenario.db_task) /\ t_id t = 10 /\ t_user_id t = u)
    /\ ("view" = "view" \/ "view" = "edit")
    /\ task_shares (out_db (shareTask (Some Scenario.alice) all_up Scenario.db_task
                                      initial_state 20 10 Scenario.bob_email "view"))
       = (task_shares Scenario.db_task ++ [mk_share 20 10 u R "view"])%list
    /\ tasks (out_db (shareTask (Some Scenario.alice) all_up Scenario.db_task
                                initial_state 20 10 Scenario.bob_email "view"))
       = tasks Scenario.db_task
    /\ (forall t,
           In t (tasks (out_db (shareTask (Some Scenario.alice) all_up
                                  Scenario.db_task initial_state 20 10
                                  Scenario.bob_email "view"))) ->
           t_id t = 10 ->
           tasks_select_policy (Some R)
             (out_db (shareTask (Some Scenario.alice) all_up Scenario.db_task
                                initial_state 20 10 Scenario.bob_email "view")) t
           = true).
Proof.
  apply (shareTask_success_grants_read
           (Some Scenario.alice) all_up Scenario.db_task initial_state
           20 10 Scenario.bob_email "view").
  reflexivity.
Defined.

(** X9. When createTask reports success, the caller is signed in and exactly
    one row was appended to [tasks]: it carries the drawn id, the caller as
    owner and the submitted columns, its priority and status pass their
    CHECKs, and no other table changed.  A task is never created for someone
    else. *)
Theorem createTask_success_adds_own_row
        (user : option UUID) (net : Net) (db : Database) (st : State)
        (new_id : UUID) (taskData : task_data) :
  reports_success (out_toasts (createTask user net db st new_id taskData)) = true ->
  let o := createTask user net db st new_id taskData in
  exists u,
    user = Some u
    /\ tasks (out_db o)
       = (tasks db ++ [mk_task new_id u (td_title taskData) (td_description taskData)
                               (td_due_date taskData) (td_priority taskData)
                               (td_status taskData)])%list
    /\ has_task db new_id = false
    /\ check_priority (td_priority taskData) = true
    /\ check_status (td_status taskData) = true
    /\ task_shares (out_db o) = task_shares db
    /\ profiles (out_db o) = profiles db.
Proof.
  intros Hok. cbv zeta.
  destruct (createTask_cases user net db st new_id taskData)
    as [[_ Hno] | (u & row & Hu & _ & Hins & _)]; [congruence|].
  apply insert_task_ok in Hins
    as (title & Ht & Hrow & Hdb & _ & Hp & Hs & Hfresh & _). simpl in *.
  injection Ht as <-. exists u. rewrite Hdb, Hrow. simpl. repeat split; auto.
Qed.

Lemma createTask_success_adds_own_row_witness :
  exists u,
    Some Scenario.alice = Some u
    /\ tasks (out_db (createTask (Some Scenario.alice) all_up Scenario.db_users
                                 initial_state 10
                                 (mk_task_data "Write report" None None "high" "pending")))
       = (tasks Scenario.db_users ++ [mk_task 10 u "Write report" None None "high" "pending"])%list
    /\ has_task Scenario.db_users 10 = false
    /\ check_priority "high" = true
    /\ check_status "pending" = true
    /\ task_shares (out_db (createTask (Some Scenario.alice) all_up Scenario.db_users
                                       initial_state 10
                                       (mk_task_data "Write report" None None "high" "pending")))
       = task_shares Scenario.db_users
    /\ profiles (out_db (createTask (Some Scenario.alice) all_up Scenario.db_users
                                    initial_state 10
                                    (mk_task_data "Write report" None None "high" "pending")))
       = profiles Scenario.db_users.
Proof.
  apply (createTask_success_adds_own_row
           (Some Scenario.alice) all_up Scenario.db_users initial_state 10
           (mk_task_data "Write report" None None "high" "pending")).
  reflexivity.
Defined.

(** X10. Without a signed-in identity none of the four calls changes the
    database or the displayed list, whatever the arguments: createTask
    returns at once, the statements of updateTask and deleteTask find no row
    their policies let them touch, and the insert of shareTask is refused. *)
Theorem calls_without_identity_change_nothing
        (net : Net) (db : Database) (st : State) (m : mutation) :
  out_db (run None net db st m) = db
  /\ out_state (run None net db st m) = st.
Proof.
  destruct m as [new_id taskData | taskId updates | taskId | new_id taskId email permission];
    simpl.
  - split; reflexivity.
  - unfold updateTask, request. destruct (up_mutation net); [|split; reflexivity].
    rewrite update_tasks_no_target.
    + split; reflexivity.
    + intros t _ _. apply policies_deny_without_identity.
  - unfold deleteTask, request. destruct (up_mutation net); [|split; reflexivity].
    rewrite delete_tasks_no_target.
    + split; reflexivity.
    + intros t _. destruct (delete_target None db taskId t) eqn:E; [|reflexivity].
      apply delete_target_needs_owner in E as [_ E]. discriminate.
  - unfold shareTask.
    destruct (request (up_profiles net) _) as [R|]; [|split; reflexivity].
    unfold request. rewrite insert_share_not_owner.
    + destruct (up_mutation net); split; reflexivity.
    + intros t _ _. discriminate.
Qed.

(* ================================================================== *)
(** ** What fetchTasks shows                                            *)
(* ================================================================== *)

Lemma inner_shares_spec (u : UUID) (db : Database) (t : tasks_row) :
  inner_shares (Some u) db u t <> [] <-> Users_can_view_shared_tasks (Some u) db t = true.
Proof.
  unfold inner_shares, Users_can_view_shared_tasks. split.
  - intros H. destruct (filter _ _) as [|s l] eqn:E; [contradiction|].
    assert (Hs : In s (s :: l)) by now left. rewrite <- E in Hs.
    apply filter_In in Hs as [Hs Hk]. apply existsb_exists. exists s.
    split; [assumption|]. simpl.
    apply andb_true_iff in Hk as [Hk1 Hk2]. rewrite Hk1. simpl.
    apply Nat.eqb_eq in Hk2. rewrite Hk2. apply Nat.eqb_refl.
  - intros H Hnil. apply existsb_exists in H as (s & Hs & Hk).
    assert (Hin : In s (filter (fun s0 => (s_task_id s0 =? t_id t)
                                          && (s_shared_with_user_id s0 =? u))
                               (visible_task_shares (Some u) db))).
    { apply filter_In. split; [assumption|]. simpl in Hk.
      apply andb_true_iff in Hk as [Hk1 Hk2]. rewrite Hk1. simpl.
      apply Nat.eqb_eq in Hk2. rewrite Hk2. apply Nat.eqb_refl. }
    rewrite Hnil in Hin. destruct Hin.
Qed.

(** The two selects together return exactly the rows the caller may read. *)
Lemma selects_return_readable_rows (u : UUID) (db : Database) (row : tasks_row) :
  In row (map task_row (allTasks (select_owned_tasks (Some u) db u)
                                 (select_shared_tasks (Some u) db u)))
  <-> In row (tasks db) /\ tasks_select_policy (Some u) db row = true.
Proof.
  unfold allTasks, select_owned_tasks, select_shared_tasks.
  rewrite map_app, !map_map. simpl. rewrite !map_id, in_app_iff.
  unfold visible_tasks. rewrite !filter_In. split.
  - intros [[[Hin Hsel] _] | [[Hin Hsel] _]]; auto.
  - intros [Hin Hsel]. unfold tasks_select_policy in Hsel.
    apply orb_true_iff in Hsel as [Hown | Hsh].
    + left. split; [split; [assumption|]|].
      * unfold tasks_select_policy. now rewrite Hown.
      * unfold Users_can_view_own_tasks in Hown. simpl in Hown.
        now rewrite Nat.eqb_sym.
    + right. split; [split; [assumption|]|].
      * unfold tasks_select_policy. rewrite Hsh. apply orb_true_r.
      * apply inner_shares_spec in Hsh.
        destruct (inner_shares (Some u) db u row); [contradiction | reflexivity].
Qed.

(** X11. When both selects are answered, the list fetchTasks displays to the
    signed-in user u holds exactly the rows of [tasks] that u may read: every
    listed task is such a row, unchanged, and every row u owns or has a share
    of is listed.  When one of them is not answered the list is the one
    displayed before. *)
Theorem fetchTasks_lists_exactly_readable_tasks
        (u : UUID) (net : Net) (db : Database) (st : State) :
  up_owned net = true -> up_shared net = true ->
  forall row : tasks_row,
    In row (map task_row (st_tasks (fst (fetchTasks (Some u) net db st))))
    <-> In row (tasks db) /\ tasks_select_policy (Some u) db row = true.
Proof.
  intros Ho Hs row.
  assert (Hst : st_tasks (fst (fetchTasks (Some u) net db st))
                = allTasks (select_owned_tasks (Some u) db u)
                           (select_shared_tasks (Some u) db u)).
  { unfold fetchTasks, request. rewrite Ho, Hs. reflexivity. }
  rewrite Hst. apply selects_return_readable_rows.
Qed.

Lemma fetchTasks_lists_exactly_readable_tasks_witness :
  In Scenario.write_report
     (map task_row (st_tasks (fst (fetchTasks (Some Scenario.bob) all_up
                                              Scenario.db_shared_view initial_state)))).
Proof.
  apply (fetchTasks_lists_exactly_readable_tasks
           Scenario.bob all_up Scenario.db_shared_view initial_state
           eq_refl eq_refl Scenario.write_report).
  split; [now left | reflexivity].
Defined.

(** X12. A task that reaches the list through the select of shared tasks
    carries the caller's own grant and nothing else: its embedded
    task_shares is not empty, and every entry names the caller as
    recipient.  The grants of other recipients are not shown. *)
Theorem shared_in_task_shows_own_grant_only
        (u : UUID) (db : Database) (task : Task) :
  In task (select_shared_tasks (Some u) db u) ->
  task_task_shares task <> []
  /\ (forall v, In v (task_task_shares task) -> sv_shared_with_user_id v = u).
Proof.
  unfold select_shared_tasks. intros H.
  apply in_map_iff in H as (t & <- & Ht). simpl.
  apply filter_In in Ht as [_ Hne]. split.
  - destruct (inner_shares (Some u) db u t); [discriminate|]. simpl. discriminate.
  - intros v Hv. apply in_map_iff in Hv as (s & <- & Hs). simpl.
    unfold inner_shares in Hs. apply filter_In in Hs as [_ Hk].
    apply andb_true_iff in Hk as [_ Hk]. now apply Nat.eqb_eq in Hk.
Qed.

Lemma shared_in_task_shows_own_grant_only_witness :
  task_task_shares
    (mk_Task Scenario.write_report
             (Some (mk_profile_summary None Scenario.alice_email))
             [mk_share_view "view" Scenario.bob
                (Some (mk_profile_summary None Scenario.bob_email))]) <> []
  /\ (forall v,
         In v (task_task_shares
                 (mk_Task Scenario.write_report
                          (Some (mk_profile_summary None Scenario.alice_email))
                          [mk_share_view "view" Scenario.bob
                             (Some (mk_profile_summary None Scenario.bob_email))])) ->
         sv_shared_with_user_id v = Scenario.bob).
Proof.
  apply (shared_in_task_shows_own_grant_only
           Scenario.bob
           (mk_db [Scenario.alice; Scenario.bob; 3]
                  (profiles Scenario.db_users ++ [mk_profile 3 "carol@example.com" None None])
                  [Scenario.write_report]
                  [mk_share 20 10 Scenario.alice Scenario.bob "view";
                   mk_share 21 10 Scenario.alice 3 "edit"])).
  simpl. now left.
Defined.

(* ================================================================== *)
(** ** The constraints of the schema are kept                           *)
(* ================================================================== *)

Lemma distinct_keys_survive_where {Row Key : Type} (key : Row -> Key)
      (keep : Row -> bool) (rows : list Row) :
  NoDup (map key rows) -> NoDup (map key (filter keep rows)).
Proof.
  intros Hd. induction rows as [|r rows IH]; simpl; [constructor|].
  simpl in Hd. apply NoDup_cons_iff in Hd as [Hnew Hd].
  destruct (keep r); simpl; [|now apply IH].
  apply NoDup_cons; [|now apply IH].
  intros Hin. apply Hnew.
  apply in_map_iff in Hin as (r' & Hk & Hr'). apply filter_In in Hr' as [Hr' _].
  rewrite <- Hk. now apply in_map.
Qed.

Lemma distinct_keys_with_fresh {Row Key : Type} (key : Row -> Key)
      (rows : list Row) (r : Row) :
  NoDup (map key rows) -> (forall x, In x rows -> key x <> key r) ->
  NoDup (map key (rows ++ [r])).
Proof.
  intros Hd Hfresh. rewrite map_app. simpl.
  apply NoDup_app; [assumption | repeat constructor; simpl; tauto |].
  intros k Hk [<- | []]. apply in_map_iff in Hk as (x & Hx & Hin).
  exact (Hfresh x Hin Hx).
Qed.

Lemma has_profile_same (db db' : Database) (k : UUID) :
  profiles db' = profiles db -> has_profile db' k = has_profile db k.
Proof. unfold has_profile. now intros ->. Qed.

Lemma has_task_same_ids (db db' : Database) (k : UUID) :
  map t_id (tasks db') = map t_id (tasks db) -> has_task db' k = has_task db k.
Proof.
  unfold has_task. intros H.
  assert (Hm : forall l, existsb (fun t => t_id t =? k) l
                         = existsb (fun i => i =? k) (map t_id l)).
  { induction l as [|t l IH]; simpl; [reflexivity | now rewrite IH]. }
  now rewrite !Hm, H.
Qed.

Lemma has_task_false_fresh (db : Database) (k : UUID) :
  has_task db k = false -> forall t, In t (tasks db) -> t_id t <> k.
Proof.
  unfold has_task. intros H t Hin Hid.
  assert (existsb (fun t => t_id t =? k) (tasks db) = true).
  { apply existsb_exists. exists t. split; [assumption | now apply Nat.eqb_eq]. }
  congruence.
Qed.

Lemma insert_task_consistent (a : option UUID) (db db' : Database) (new_id : UUID)
      (b : task_insert) (row : tasks_row) :
  Consistent db -> insert_task a db new_id b = Ok (db', row) -> Consistent db'.
Proof.
  intros C H. apply insert_task_ok in H
    as (title & _ & Hrow & -> & _ & Hp & Hs & Hfresh & Hprof).
  destruct C. constructor; simpl; try assumption.
  - apply distinct_keys_with_fresh; [assumption|].
    intros x Hx. rewrite Hrow. simpl.
    exact (has_task_false_fresh db new_id Hfresh x Hx).
  - intros t Ht. apply in_app_or in Ht as [Ht | [<- | []]].
    + now apply fk_tasks_user0.
    + rewrite Hrow. exact Hprof.
  - intros s Hs'. unfold has_task. simpl. rewrite existsb_app.
    apply orb_true_iff. left. now apply fk_shares_task0.
  - intros t Ht. apply in_app_or in Ht as [Ht | [<- | []]].
    + now apply ck_tasks0.
    + rewrite Hrow. simpl. auto.
Qed.

Lemma update_tasks_consistent (a : option UUID) (db db' : Database) (T : UUID)
      (u : task_update) :
  Consistent db -> update_tasks a db T u = Ok db' -> Consistent db'.
Proof.
  intros C H. apply update_tasks_ok in H as [-> Hck].
  assert (Hids : map t_id (map (fun t => if update_target a db T t
                                         then apply_task_update u t else t) (tasks db))
                 = map t_id (tasks db)).
  { rewrite map_map. apply map_ext. intros t. now destruct (update_target a db T t). }
  destruct C. constructor; simpl; try assumption.
  - now rewrite Hids.
  - intros t' Ht'. apply in_map_iff in Ht' as (t & <- & Ht).
    replace (t_user_id (if update_target a db T t then apply_task_update u t else t))
      with (t_user_id t) by now destruct (update_target a db T t).
    now apply fk_tasks_user0.
  - intros s Hs. rewrite <- (fk_shares_task0 s Hs).
    apply has_task_same_ids. exact Hids.
  - intros t' Ht'. apply in_map_iff in Ht' as (t & <- & Ht).
    destruct (update_target a db T t) eqn:E; [now apply Hck | now apply ck_tasks0].
Qed.

Lemma delete_tasks_consistent (a : option UUID) (db db' : Database) (T : UUID) :
  Consistent db -> delete_tasks a db T = Ok db' -> Consistent db'.
Proof.
  intros C H. unfold delete_tasks in H. injection H as <-.
  destruct C. constructor; simpl; try assumption.
  - now apply distinct_keys_survive_where.
  - now apply distinct_keys_survive_where.
  - now apply distinct_keys_survive_where.
  - intros t Ht. apply filter_In in Ht as [Ht _]. now apply fk_tasks_user0.
  - intros s Hs. apply filter_In in Hs as [Hs Hkeep].
    apply negb_true_iff in Hkeep.
    specialize (fk_shares_task0 s Hs). unfold has_task in *. simpl.
    apply existsb_exists in fk_shares_task0 as (t & Ht & Hid).
    apply existsb_exists. exists t. split; [|assumption].
    apply filter_In. split; [assumption|].
    destruct (delete_target a db T t) eqn:E; [|reflexivity].
    exfalso.
    assert (existsb (Nat.eqb (s_task_id s))
                    (map t_id (filter (delete_target a db T) (tasks db))) = true).
    { apply existsb_exists. exists (t_id t). split.
      - apply in_map. apply filter_In. auto.
      - apply Nat.eqb_eq in Hid. rewrite Hid. apply Nat.eqb_refl. }
    congruence.
  - intros s Hs. apply filter_In in Hs as [Hs _]. now apply fk_shares_by0.
  - intros s Hs. apply filter_In in Hs as [Hs _]. now apply fk_shares_with0.
  - intros t Ht. apply filter_In in Ht as [Ht _]. now apply ck_tasks0.
  - intros s Hs. apply filter_In in Hs as [Hs _]. now apply ck_task_shares0.
Qed.

Lemma insert_share_consistent (a : option UUID) (db db' : Database) (new_id : UUID)
      (b : share_insert) :
  Consistent db -> insert_share a db new_id b = Ok db' -> Consistent db'.
Proof.
  intros C H. apply insert_share_ok in H
    as (by_id & _ & -> & _ & Hck & Hpk & Huq & Ht & Hb & Hw).
  destruct C. constructor; simpl; try assumption.
  - apply distinct_keys_with_fresh; [assumption|].
    intros s Hs Hid. simpl in Hid.
    assert (existsb (fun s => s_id s =? new_id) (task_shares db) = true).
    { apply existsb_exists. exists s. split; [assumption | now apply Nat.eqb_eq]. }
    congruence.
  - apply distinct_keys_with_fresh; [assumption|].
    intros s Hs Hk. unfold share_key in Hk. simpl in Hk. injection Hk as H1 H2.
    assert (existsb (same_share_key (si_task_id b) (si_shared_with_user_id b))
                    (task_shares db) = true).
    { apply existsb_exists. exists s. split; [assumption|].
      unfold same_share_key. now rewrite H1, H2, !Nat.eqb_refl. }
    congruence.
  - intros s Hs. apply in_app_or in Hs as [Hs | [<- | []]];
      [now apply fk_shares_task0 | exact Ht].
  - intros s Hs. apply in_app_or in Hs as [Hs | [<- | []]];
      [now apply fk_shares_by0 | exact Hb].
  - intros s Hs. apply in_app_or in Hs as [Hs | [<- | []]];
      [now apply fk_shares_with0 | exact Hw].
  - intros s Hs. apply in_app_or in Hs as [Hs | [<- | []]];
      [now apply ck_task_shares0 | exact Hck].
Qed.

(** X13. The four calls of the hook keep the constraints the schema
    declares: from a database in which primary keys are distinct, no
    (task, recipient) pair has two shares, every reference points to an
    existing row and every CHECK holds, each of createTask, updateTask,
    deleteTask and shareTask leads to such a database again, whoever calls
    it and with whatever arguments.  In particular no call leaves a share
    of a missing task or a task of a missing profile behind. *)
Theorem calls_keep_schema_constraints
        (user : option UUID) (net : Net) (db : Database) (st : State) (m : mutation) :
  Consistent db -> Consistent (out_db (run user net db st m)).
Proof.
  intros C.
  destruct m as [new_id taskData | taskId updates | taskId | new_id taskId email permission];
    simpl.
  - destruct (createTask_cases user net db st new_id taskData)
      as [[-> _] | (u & row & _ & _ & H & _)]; [assumption|].
    eapply insert_task_consistent; eassumption.
  - destruct (updateTask_cases user net db st taskId updates)
      as [[-> _] | (_ & H & _)]; [assumption|].
    eapply update_tasks_consistent; eassumption.
  - destruct (deleteTask_cases user net db st taskId)
      as [[-> _] | (_ & H & _)]; [assumption|].
    eapply delete_tasks_consistent; eassumption.
  - destruct (shareTask_cases user net db st new_id taskId email permission)
      as [[-> _] | (R & _ & _ & _ & H & _)]; [assumption|].
    eapply insert_share_consistent; eassumption.
Qed.


Lemma calls_keep_schema_constraints_witness :
  Consistent (out_db (run (Some Scenario.alice) all_up Scenario.db_shared_view
                          initial_state (DeleteTask 10))).
Proof.
  apply (calls_keep_schema_constraints
           (Some Scenario.alice) all_up Scenario.db_shared_view initial_state
           (DeleteTask 10)).
  constructor; simpl;
    try (repeat constructor; simpl; intuition discriminate);
    try (intros x Hx; repeat (destruct Hx as [<- | Hx]); try destruct Hx;
         simpl; auto).
Defined.

(* ================================================================== *)
(** ** Profiles: sign-up, look-up by email, update                      *)
(* ================================================================== *)

Lemma has_profile_false_fresh (db : Database) (k : UUID) :
  has_profile db k = false -> forall p, In p (profiles db) -> p_id p <> k.
Proof.
  unfold has_profile. intros H p Hin Hid.
  assert (existsb (fun p => p_id p =? k) (profiles db) = true).
  { apply existsb_exists. exists p. split; [assumption | now apply Nat.eqb_eq]. }
  congruence.
Qed.

(** X14. A sign-up that is accepted (the insert into auth.users with its
    trigger handle_new_user) leaves exactly one profile for the new identity,
    holding the email and the metadata of the identity, and keeps the
    constraints of the schema; a second sign-up with the same id is refused.
    One profile per identity, made once. *)
Theorem sign_up_makes_one_profile
        (db db' : Database) (NEW : auth_user) :
  on_auth_user_created db NEW = Ok db' ->
  (exists e, NEW_email NEW = Some e
             /\ profiles db' = (profiles db ++
                                [mk_profile (NEW_id NEW) e (NEW_full_name NEW)
                                            (NEW_avatar_url NEW)])%list)
  /\ List.length (filter (fun p => p_id p =? NEW_id NEW) (profiles db')) = 1
  /\ (forall NEW', NEW_id NEW' = NEW_id NEW ->
                   on_auth_user_created db' NEW' = Err UniqueViolation)
  /\ (Consistent db -> Consistent db').
Proof.
  unfold on_auth_user_created, handle_new_user. intros H.
  destruct (existsb (Nat.eqb (NEW_id NEW)) (auth_users db)) eqn:Hau; [discriminate|].
  simpl in H.
  pose proof (profiles_insert_row_ok _ _ _ _ _ _ H) as (e & He & Hfresh & Hp).
  unfold profiles_insert_row in H. rewrite He in H.
  unfold has_profile in Hfresh. simpl in Hfresh, Hp.
  change (existsb (fun p => p_id p =? NEW_id NEW) (profiles db))
    with (has_profile db (NEW_id NEW)) in Hfresh.
  unfold has_profile at 1 in H. simpl in H.
  change (existsb (fun p => p_id p =? NEW_id NEW) (profiles db))
    with (has_profile db (NEW_id NEW)) in H.
  rewrite Hfresh in H. simpl in H.
  destruct (existsb (Nat.eqb (NEW_id NEW)) (auth_users db ++ [NEW_id NEW]));
    [|discriminate].
  injection H as <-. simpl. split; [|split; [|split]].
  - exists e. auto.
  - rewrite filter_app. simpl. rewrite Nat.eqb_refl.
    replace (filter (fun p => p_id p =? NEW_id NEW) (profiles db))
      with (@nil profiles_row); [reflexivity|].
    symmetry. apply filter_nil_iff. intros p Hin.
    apply Nat.eqb_neq. now apply (has_profile_false_fresh db).
  - intros NEW' Hid. rewrite Hid. simpl.
    rewrite existsb_app. simpl. rewrite Nat.eqb_refl.
    now rewrite orb_true_r.
  - intros C. destruct C. constructor; simpl; try assumption.
    + apply distinct_keys_with_fresh; [assumption|].
      intros p Hin. simpl. now apply (has_profile_false_fresh db).
    + intros p Hin. apply in_or_app.
      apply in_app_or in Hin as [Hin | [<- | []]]; [left | right; now left].
      now apply fk_profiles_id0.
    + intros t Ht. unfold has_profile. simpl. rewrite existsb_app.
      apply orb_true_iff. left. now apply fk_tasks_user0.
    + intros s Hs. unfold has_profile. simpl. rewrite existsb_app.
      apply orb_true_iff. left. now apply fk_shares_by0.
    + intros s Hs. unfold has_profile. simpl. rewrite existsb_app.
      apply orb_true_iff. left. now apply fk_shares_with0.
Qed.

Lemma sign_up_makes_one_profile_witness :
  List.length (filter (fun p => p_id p =? Scenario.bob) (profiles Scenario.db_users)) = 1.
Proof.
  apply (sign_up_makes_one_profile
           (mk_db [Scenario.alice]
                  [mk_profile Scenario.alice Scenario.alice_email None None] [] [])
           Scenario.db_users
           (mk_auth_user Scenario.bob (Some Scenario.bob_email) None None)).
  reflexivity.
Defined.

(** X15. When two or more profiles hold the address, shareTask cannot tell
    them apart: the look-up with .single() fails, the call raises "User not
    found with this email address" although such users exist, and nothing is
    inserted. *)
Theorem shareTask_ambiguous_email_not_found
        (user : option UUID) (net : Net) (db : Database) (st : State)
        (new_id T : UUID) (E permission : string) :
  2 <= List.length (filter (fun p => String.eqb (p_email p) E) (profiles db)) ->
  let o := shareTask user net db st new_id T E permission in
  out_toasts o = [toast_error "User not found with this email address"]
  /\ out_db o = db
  /\ out_state o = st.
Proof.
  intros H. cbv zeta. unfold shareTask, request, select_profile_by_email.
  rewrite (filter_all_kept Users_can_view_all_profiles) by reflexivity.
  destruct (filter (fun p => String.eqb (p_email p) E) (profiles db))
    as [|p1 [|p2 l]]; simpl in H; try lia.
  destruct (up_profiles net); repeat split; reflexivity.
Qed.

Lemma shareTask_ambiguous_email_not_found_witness :
  out_toasts (shareTask (Some Scenario.alice) all_up Scenario.db_same_email
                        initial_state 20 10 Scenario.alice_email "view")
  = [toast_error "User not found with this email address"].
Proof.
  apply (shareTask_ambiguous_email_not_found
           (Some Scenario.alice) all_up Scenario.db_same_email
           initial_state 20 10 Scenario.alice_email "view").
  simpl. lia.
Defined.

(** X16. An update of profiles changes the caller's own row at most: every
    row of another identity is still there as it was, no row is added or
    removed, no id changes, and the other tables are untouched. *)
Theorem update_profile_touches_own_row_only
        (auth_uid : option UUID) (db db' : Database) (id : UUID) (u : profile_update) :
  update_profile auth_uid db id u = Ok db' ->
  map p_id (profiles db') = map p_id (profiles db)
  /\ (forall p, In p (profiles db) -> auth_uid <> Some (p_id p) -> In p (profiles db'))
  /\ tasks db' = tasks db
  /\ task_shares db' = task_shares db.
Proof.
  unfold update_profile. intros H.
  assert (Hother : forall p, auth_uid <> Some (p_id p) ->
            (p_id p =? id) && Users_can_update_own_profile auth_uid p
            && Users_can_view_all_profiles p = false).
  { intros p Hp. unfold Users_can_update_own_profile.
    destruct (uid_is auth_uid (p_id p)) eqn:E.
    - apply uid_is_true in E. contradiction.
    - now rewrite andb_false_r. }
  destruct (pu_email u) as [[e|]|].
  - injection H as <-. simpl. rewrite map_map. repeat split.
    + apply map_ext. intros p. now destruct (_ && _ && _).
    + intros p Hin Hp. apply in_map_iff. exists p. split; [|assumption].
      now rewrite (Hother p Hp).
  - destruct (negb _); [|discriminate]. injection H as <-. repeat split; auto.
  - injection H as <-. simpl. rewrite map_map. repeat split.
    + apply map_ext. intros p. now destruct (_ && _ && _).
    + intros p Hin Hp. apply in_map_iff. exists p. split; [|assumption].
      now rewrite (Hother p Hp).
Qed.

Lemma update_profile_touches_own_row_only_witness :
  map p_id (profiles Scenario.db_same_email) = map p_id (profiles Scenario.db_users).
Proof.
  apply (update_profile_touches_own_row_only
           (Some Scenario.bob) Scenario.db_users Scenario.db_same_email Scenario.bob
           (mk_profile_update (Some (Some Scenario.alice_email)) None None)).
  reflexivity.
Defined.

(* ================================================================== *)
(** ** The profiles embedded in the list                                *)
(* ================================================================== *)





(* ================================================================== *)
(** ** The task card: any status                                        *)
(* ================================================================== *)

(** X18. handleStatusChange always hands onUpdate one of the three statuses
    the CHECK constraint of [tasks] admits, whatever status the card holds;
    from a status that is none of the three (indexOf gives -1) it goes to
    'pending'. *)
Theorem handleStatusChange_always_valid (task_status : string) :
  exists next,
    handleStatusChange task_status = Some next
    /\ In next statusOrder
    /\ check_status next = true
    /\ (~ In task_status statusOrder -> next = "pending").
Proof.
  unfold handleStatusChange, indexOf, statusOrder, indexOf_from.
  destruct (String.eqb "pending" task_status) eqn:E1.
  { exists "in-progress". apply String.eqb_eq in E1. subst. cbn.
    split; [reflexivity|]. split; [tauto|]. split; [reflexivity|].
    intros H. exfalso. apply H. now left. }
  destruct (String.eqb "in-progress" task_status) eqn:E2.
  { exists "completed". apply String.eqb_eq in E2. subst. cbn.
    split; [reflexivity|]. split; [tauto|]. split; [reflexivity|].
    intros H. exfalso. apply H. right. now left. }
  destruct (String.eqb "completed" task_status) eqn:E3.
  { exists "pending". apply String.eqb_eq in E3. subst. cbn.
    split; [reflexivity|]. split; [tauto|]. split; reflexivity. }
  exists "pending". cbn.
  split; [reflexivity|]. split; [tauto|]. split; reflexivity.
Qed.

(* ================================================================== *)
(** ** The share dialog: validateEmail                                  *)
(* ================================================================== *)

Module RegexFacts.
Import ShareTaskModal.

Lemma nullable_spec (r : regex) : nullable r = true <-> denotes r [].
Proof.
  induction r as [| | member | r1 IH1 r2 IH2 | r1 IH1 r2 IH2 | r1 IH1]; simpl.
  - split; [discriminate | tauto].
  - tauto.
  - split; [discriminate | intros (c & H & _); discriminate].
  - rewrite andb_true_iff, IH1, IH2. split.
    + intros [H1 H2]. exists [], []. auto.
    + intros (w1 & w2 & Hw & H1 & H2). symmetry in Hw.
      apply app_eq_nil in Hw as [-> ->]. auto.
  - now rewrite orb_true_iff, IH1, IH2.
  - split; [|reflexivity]. intros _. exists []. auto.
Qed.

Lemma after_spec (r : regex) (c : ascii) :
  forall w, denotes (after c r) w <-> denotes r (c :: w).
Proof.
  induction r as [| | member | r1 IH1 r2 IH2 | r1 IH1 r2 IH2 | r1 IH1];
    intros w; simpl.
  - tauto.
  - split; [tauto | discriminate].
  - destruct (member c) eqn:Hm; simpl.
    + split.
      * intros ->. exists c. auto.
      * intros (c' & [= Hc Hw] & _). exact Hw.
    + split; [tauto|]. intros (c' & [= Hc Hw] & H). congruence.
  - assert (Hcons : (exists w1 w2, w = (w1 ++ w2)%list /\ denotes (after c r1) w1
                                   /\ denotes r2 w2)
                    <-> (exists w1' w2, c :: w = ((c :: w1') ++ w2)%list
                                        /\ denotes r1 (c :: w1') /\ denotes r2 w2)).
    { split; intros (w1 & w2 & Hw & H1 & H2); exists w1, w2.
      - subst. rewrite <- IH1. auto.
      - injection Hw as ->. rewrite IH1. auto. }
    destruct (nullable r1) eqn:Hn; simpl.
    + rewrite Hcons, IH2. split.
      * intros [(w1 & w2 & Hw & H1 & H2) | H2].
        -- exists (c :: w1), w2. auto.
        -- exists [], (c :: w). split; [reflexivity|]. split; [|assumption].
           now apply nullable_spec.
      * intros (w1 & w2 & Hw & H1 & H2). destruct w1 as [|c' w1].
        -- right. simpl in Hw. now subst.
        -- left. injection Hw as <- ->. exists w1, w2. auto.
    + rewrite Hcons. split.
      * intros (w1 & w2 & Hw & H1 & H2). exists (c :: w1), w2. auto.
      * intros (w1 & w2 & Hw & H1 & H2). destruct w1 as [|c' w1].
        -- apply nullable_spec in H1. congruence.
        -- injection Hw as <- ->. exists w1, w2. auto.
  - now rewrite IH1, IH2.
  - split.
    + intros (w1 & w2 & -> & H1 & (ws & -> & Hws)).
      exists ((c :: w1) :: ws). split; [reflexivity|].
      constructor; [now apply IH1 | assumption].
    + intros (ws & Hw & Hws). revert Hw.
      induction Hws as [|x ws Hx Hws IHws]; simpl; [discriminate|].
      destruct x as [|c' x]; simpl; [exact IHws|].
      intros [= <- ->]. exists x, (List.concat ws).
      split; [reflexivity|]. split; [now apply IH1|].
      exists ws. auto.
Qed.

Lemma test_chars_spec (w : list ascii) :
  forall r, test_chars r w = true <-> denotes r w.
Proof.
  induction w as [|c w IH]; intros r; simpl.
  - apply nullable_spec.
  - rewrite IH. apply after_spec.
Qed.

Lemma one_or_more_of_class (member : ascii -> bool) (w : list ascii) :
  denotes (Some1 (Class member)) w <->
  w <> [] /\ Forall (fun c => member c = true) w.
Proof.
  unfold Some1. simpl. split.
  - intros (w1 & w2 & -> & (c & -> & Hc) & (ws & -> & Hws)). split; [discriminate|].
    constructor; [assumption|].
    induction Hws as [|x ws (c' & -> & Hc') Hws IHws]; simpl; [constructor|].
    constructor; assumption.
  - intros [Hne Hall]. destruct w as [|c w]; [contradiction|].
    apply Forall_cons_iff in Hall as [Hc Hall].
    exists [c], w. split; [reflexivity|]. split; [exists c; auto|].
    exists (map (fun x => [x]) w). split.
    + clear. induction w as [|x w IH]; simpl; [reflexivity | now rewrite <- IH].
    + clear - Hall. induction Hall as [|x w Hx Hall IH]; simpl; constructor.
      * exists x. auto.
      * exact IH.
Qed.

Lemma chars_of_append (a b : string) :
  list_ascii_of_string (a ++ b) = (list_ascii_of_string a ++ list_ascii_of_string b)%list.
Proof. induction a as [|c a IH]; simpl; [reflexivity | now rewrite IH]. Qed.

Lemma plain_part_chars (w : list ascii) :
  w <> [] /\ Forall (fun c => not_space_not_at c = true) w <->
  plain_part (string_of_list_ascii w).
Proof.
  unfold plain_part. rewrite list_ascii_of_string_of_list_ascii. split.
  - intros [Hne H]. split; [|assumption]. destruct w; [contradiction | discriminate].
  - intros [Hne H]. split; [|assumption]. intros ->. now apply Hne.
Qed.

End RegexFacts.

(** X19. validateEmail accepts exactly the strings of the shape
    local@domain.tld in which local, domain and tld are non-empty and hold
    neither white space nor '@' (so the string has exactly one '@', and a
    '.' after it that is neither its first nor its last character). *)
Theorem validateEmail_accepts_exactly_local_at_domain_dot_tld (email : string) :
  ShareTaskModal.validateEmail email = true <->
  exists loc dom tld : string,
    email = loc ++ "@" ++ dom ++ "." ++ tld
    /\ ShareTaskModal.plain_part loc
    /\ ShareTaskModal.plain_part dom
    /\ ShareTaskModal.plain_part tld.
Proof.
  unfold ShareTaskModal.validateEmail.
  rewrite RegexFacts.test_chars_spec. unfold ShareTaskModal.emailRegex.
  split.
  - intros (w1 & r1 & Hw & H1 & (w2 & r2 & -> & (c2 & -> & Hc2)
             & (w3 & r3 & -> & H3 & (w4 & w5 & -> & (c4 & -> & Hc4) & H5)))).
    apply Ascii.eqb_eq in Hc2, Hc4. subst c2 c4.
    apply RegexFacts.one_or_more_of_class in H1, H3, H5.
    apply RegexFacts.plain_part_chars in H1, H3, H5.
    exists (string_of_list_ascii w1), (string_of_list_ascii w3),
      (string_of_list_ascii w5).
    split; [|auto].
    rewrite <- (string_of_list_ascii_of_string email), Hw.
    rewrite <- (string_of_list_ascii_of_string
                  (string_of_list_ascii w1 ++ "@" ++ string_of_list_ascii w3
                   ++ "." ++ string_of_list_ascii w5)).
    f_equal. rewrite !RegexFacts.chars_of_append.
    rewrite !list_ascii_of_string_of_list_ascii. reflexivity.
  - intros (loc & dom & tld & -> & Hl & Hd & Ht).
    rewrite <- (string_of_list_ascii_of_string loc) in Hl.
    rewrite <- (string_of_list_ascii_of_string dom) in Hd.
    rewrite <- (string_of_list_ascii_of_string tld) in Ht.
    apply RegexFacts.plain_part_chars in Hl, Hd, Ht.
    apply RegexFacts.one_or_more_of_class in Hl, Hd, Ht.
    rewrite !RegexFacts.chars_of_append. simpl.
    exists (list_ascii_of_string loc),
      ("@"%char :: list_ascii_of_string dom ++ "."%char :: list_ascii_of_string tld)%list.
    split; [reflexivity|]. split; [exact Hl|].
    exists ["@"%char], (list_ascii_of_string dom ++ "."%char :: list_ascii_of_string tld)%list.
    split; [reflexivity|]. split; [exists "@"%char; auto|].
    exists (list_ascii_of_string dom), ("."%char :: list_ascii_of_string tld)%list.
    split; [reflexivity|]. split; [exact Hd|].
    exists ["."%char], (list_ascii_of_string tld).
    split; [reflexivity|]. split; [exists "."%char; auto | exact Ht].
Qed.

(* ================================================================== *)
(** ** The share dialog: what it hands to onShare                       *)
(* ================================================================== *)

Module DialogFacts.
Import ShareTaskModal.

Lemma lower_char_idempotent (c : ascii) : lower_char (lower_char c) = lower_char c.
Proof.
  destruct c as [b0 b1 b2 b3 b4 b5 b6 b7].
  destruct b0, b1, b2, b3, b4, b5, b6, b7; reflexivity.
Qed.

Lemma toLowerCase_idempotent (s : string) : toLowerCase (toLowerCase s) = toLowerCase s.
Proof.
  induction s as [|c s IH]; simpl; [reflexivity|].
  now rewrite lower_char_idempotent, IH.
Qed.

Lemma includes_false (l : list string) (x : string) :
  includes l x = false <-> ~ In x l.
Proof.
  unfold includes. split.
  - intros H Hin.
    assert (existsb (String.eqb x) l = true).
    { apply existsb_exists. exists x. split; [assumption | apply String.eqb_refl]. }
    congruence.
  - intros H. destruct (existsb (String.eqb x) l) eqn:E; [|reflexivity].
    apply existsb_exists in E as (y & Hy & Heq). apply String.eqb_eq in Heq.
    subst. contradiction.
Qed.

Lemma act_keeps_clean (sharedWith : list string) (m : modal) (a : action) :
  clean sharedWith m -> clean sharedWith (act sharedWith m a).
Proof.
  intros [Hnd Hall]. destruct a as [value | | email | |]; simpl.
  - split; assumption.
  - unfold addEmail.
    destruct (String.eqb (toLowerCase (trim (emailInput m))) ""); [split; assumption|].
    destruct (validateEmail (toLowerCase (trim (emailInput m)))) eqn:Hv;
      simpl; [|split; assumption].
    destruct (includes (emails m) (toLowerCase (trim (emailInput m)))) eqn:Hi;
      [split; assumption|].
    destruct (includes sharedWith (toLowerCase (trim (emailInput m)))) eqn:Hs;
      [split; assumption|].
    simpl. split.
    + apply NoDup_app; [assumption | repeat constructor; simpl; tauto |].
      intros x Hx [<- | []]. apply includes_false in Hi. contradiction.
    + apply Forall_app. split; [assumption|]. constructor; [|constructor].
      split; [assumption|]. split; [apply toLowerCase_idempotent | assumption].
  - split.
    + now apply NoDup_filter.
    + apply Forall_forall. intros x Hx. apply filter_In in Hx as [Hx _].
      rewrite Forall_forall in Hall. now apply Hall.
  - unfold handleSubmit. destruct (emails m) eqn:E; simpl.
    + split; constructor.
    + split; constructor.
  - split; constructor.
Qed.

Lemma session_is_clean (sharedWith : list string) (actions : list action) :
  clean sharedWith (session sharedWith actions).
Proof.
  unfold session.
  assert (H : forall m, clean sharedWith m ->
                        clean sharedWith (fold_left (act sharedWith) actions m)).
  { induction actions as [|a actions IH]; intros m Hm; simpl; [assumption|].
    apply IH. now apply act_keeps_clean. }
  apply H. split; constructor.
Qed.

End DialogFacts.

(** X20. Whatever the user types and presses in the share dialog, the list
    handleSubmit hands to onShare is not empty, has no address twice, and
    holds only addresses that validateEmail accepts, that are in lower case,
    and that are not in the sharedWith list of the task.  (With no address
    added, handleSubmit hands over nothing.) *)
Theorem share_dialog_hands_over_clean_list
        (sharedWith : list string) (actions : list ShareTaskModal.action)
        (handed : list string) :
  fst (ShareTaskModal.handleSubmit (ShareTaskModal.session sharedWith actions))
  = Some handed ->
  handed <> []
  /\ NoDup handed
  /\ Forall (fun e => ShareTaskModal.validateEmail e = true
                      /\ ShareTaskModal.toLowerCase e = e
                      /\ ShareTaskModal.includes sharedWith e = false) handed.
Proof.
  intros H.
  destruct (DialogFacts.session_is_clean sharedWith actions) as [Hnd Hall].
  unfold ShareTaskModal.handleSubmit in H.
  destruct (ShareTaskModal.emails (ShareTaskModal.session sharedWith actions))
    as [|e l] eqn:E; simpl in H; [discriminate|].
  injection H as <-. split; [discriminate|]. split; assumption.
Qed.

Lemma share_dialog_hands_over_clean_list_witness :
  ["bob@example.com"] <> []
  /\ NoDup ["bob@example.com"]
  /\ Forall (fun e => ShareTaskModal.validateEmail e = true
                      /\ ShareTaskModal.toLowerCase e = e
                      /\ ShareTaskModal.includes ["carol@example.com"] e = false)
            ["bob@example.com"].
Proof.
  apply (share_dialog_hands_over_clean_list
           ["carol@example.com"]
           [ShareTaskModal.Type_ "  Bob@Example.com "; ShareTaskModal.PressAdd;
            ShareTaskModal.Type_ "carol@example.com"; ShareTaskModal.PressAdd;
            ShareTaskModal.Type_ "bob@example.com"; ShareTaskModal.PressAdd]
           ["bob@example.com"]).
  reflexivity.
Defined.

(* ================================================================== *)
(** ** Sharing from the page                                            *)
(* ================================================================== *)

Lemma share_each_appends_view_shares
      (user : option UUID) (net : Net) (taskId : UUID) (draws : list (UUID * string)) :
  forall (db : Database) (st : State),
  exists added,
    task_shares (out_db (IndexPage.share_each user net db st taskId draws))
    = (task_shares db ++ added)%list
    /\ Forall (fun s => s_permission s = "view"
                        /\ Some (s_shared_by_user_id s) = user
                        /\ s_task_id s = taskId) added
    /\ List.length added <= List.length draws
    /\ tasks (out_db (IndexPage.share_each user net db st taskId draws)) = tasks db
    /\ profiles (out_db (IndexPage.share_each user net db st taskId draws))
       = profiles db.
Proof.
  induction draws as [|[new_id email] draws IH]; intros db st; simpl.
  - exists []. rewrite app_nil_r.
    split; [reflexivity|]. split; [constructor|].
    split; [simpl; lia | split; reflexivity].
  - destruct (IH (out_db (shareTask user net db st new_id taskId email "view"))
                 (out_state (shareTask user net db st new_id taskId email "view")))
      as (added & Hsh & Hall & Hlen & Ht & Hp).
    rewrite Hsh, Ht, Hp.
    destruct (shareTask_cases user net db st new_id taskId email "view")
      as [[Hdb _] | (R & _ & _ & _ & Hins & _)].
    + rewrite Hdb. exists added.
      split; [reflexivity|]. split; [exact Hall|].
      split; [simpl; lia | split; reflexivity].
    + apply insert_share_ok in Hins as (by_id & Hby & Hdb & _). simpl in Hby.
      rewrite Hdb. simpl. exists (mk_share new_id taskId by_id R "view" :: added).
      rewrite <- app_assoc. simpl.
      split; [reflexivity|]. split; [|split; [lia | split; reflexivity]].
      constructor; [|assumption]. simpl. rewrite <- Hby. auto.
Qed.

(** X21. Sharing from the page never grants more than 'view': handleShareTask
    only appends rows to task_shares, at most one per address, each for the
    selected task, with the signed-in user as grantor and the permission
    'view'; existing shares, tasks and profiles are left as they are, and
    without a selected task nothing happens. *)
Theorem handleShareTask_grants_view_only
        (user : option UUID) (net : Net) (db : Database) (st : State)
        (selectedTask : option Task) (draws : list (UUID * string)) :
  let o := IndexPage.handleShareTask user net db st selectedTask draws in
  exists added,
    task_shares (out_db o) = (task_shares db ++ added)%list
    /\ Forall (fun s => s_permission s = "view"
                        /\ Some (s_shared_by_user_id s) = user
                        /\ exists task, selectedTask = Some task
                                        /\ s_task_id s = task_id_of task) added
    /\ List.length added <= List.length draws
    /\ tasks (out_db o) = tasks db
    /\ profiles (out_db o) = profiles db.
Proof.
  cbv zeta. unfold IndexPage.handleShareTask.
  destruct selectedTask as [task|]; simpl.
  - destruct (share_each_appends_view_shares user net (task_id_of task) draws db st)
      as (added & Hsh & Hall & Hlen & Ht & Hp).
    exists added.
    split; [exact Hsh|]. split; [|split; [exact Hlen | split; assumption]].
    eapply Forall_impl; [|exact Hall]. simpl.
    intros s (H1 & H2 & H3). split; [exact H1|]. split; [exact H2|].
    exists task. auto.
  - exists []. rewrite app_nil_r.
    split; [reflexivity|]. split; [constructor|].
    split; [simpl; lia | split; reflexivity].
Qed.

(* ================================================================== *)
(** ** The create form: what it submits                                 *)
(* ================================================================== *)

Module TrimFacts.
Import Chars.









End TrimFacts.



(* ================================================================== *)
(** ** The page: statistics and filters                                 *)
(* ================================================================== *)

Lemma status_is_one_of_three (s : string) :
  check_status s = true ->
  (String.eqb s "completed", String.eqb s "pending", String.eqb s "in-progress")
  = (true, false, false)
  \/ (String.eqb s "completed", String.eqb s "pending", String.eqb s "in-progress")
     = (false, true, false)
  \/ (String.eqb s "completed", String.eqb s "pending", String.eqb s "in-progress")
     = (false, false, true).
Proof.
  unfold check_status. intros H.
  apply orb_true_iff in H as [H | H]; [apply orb_true_iff in H as [H | H]|];
    apply String.eqb_eq in H; subst; simpl; tauto.
Qed.

(** X23. When every displayed task has one of the three statuses (which the
    CHECK constraint of the table ensures), the statistics of the page add
    up: completed + pending + in progress is the total, and the overdue
    tasks are among those not completed. *)
Theorem task_stats_add_up (now : Z) (tasks : list Task) :
  (forall t, In t tasks -> check_status (t_status (task_row t)) = true) ->
  let s := IndexPage.getTaskStats now tasks in
  IndexPage.completed s + IndexPage.pending s + IndexPage.inProgress s
  = IndexPage.total s
  /\ IndexPage.overdue s + IndexPage.completed s <= IndexPage.total s.
Proof.
  intros H. cbv zeta. unfold IndexPage.getTaskStats, IndexPage.count. simpl.
  induction tasks as [|t tasks IH]; simpl; [split; lia|].
  destruct IH as [IH1 IH2]; [intros x Hx; apply H; now right|].
  pose proof (status_is_one_of_three _ (H t (or_introl eq_refl))) as Hs.
  destruct Hs as [Hs | [Hs | Hs]]; injection Hs as -> -> ->; simpl;
    rewrite ?andb_false_r, ?andb_true_r;
    destruct (t_due_date (task_row t)) as [d|]; simpl;
    try destruct (IndexPage.date_ms d <? now)%Z; simpl; split; lia.
Qed.

Lemma task_stats_add_up_witness :
  IndexPage.completed (IndexPage.getTaskStats 0 [mk_Task Scenario.write_report None []])
  + IndexPage.pending (IndexPage.getTaskStats 0 [mk_Task Scenario.write_report None []])
  + IndexPage.inProgress (IndexPage.getTaskStats 0 [mk_Task Scenario.write_report None []])
  = IndexPage.total (IndexPage.getTaskStats 0 [mk_Task Scenario.write_report None []]).
Proof.
  apply (task_stats_add_up 0%Z [mk_Task Scenario.write_report None []]).
  intros t [<- | []]. reflexivity.
Defined.

Lemma str_includes_empty (hay : string) : IndexPage.str_includes hay "" = true.
Proof. destruct hay; reflexivity. Qed.

(** X24. The filters of the page work as a conjunction: a task is displayed
    exactly when it is in the list, matches the search, and passes each of
    the status, priority and due-date filters that is not 'all'.  With an
    empty search and all three filters at 'all' every task is displayed, in
    the order of the list. *)
Theorem filteredTasks_is_conjunction_of_filters
        (now : Z) (tasks : list Task) (searchQuery : string)
        (filters : TaskFilters.Filters) :
  (forall t,
      In t (IndexPage.filteredTasks now tasks searchQuery filters) <->
      In t tasks
      /\ IndexPage.matches_search searchQuery t = true
      /\ (TaskFilters.f_status filters = "all"
          \/ t_status (task_row t) = TaskFilters.f_status filters)
      /\ (TaskFilters.f_priority filters = "all"
          \/ t_priority (task_row t) = TaskFilters.f_priority filters)
      /\ (TaskFilters.f_dueDate filters = "all"
          \/ IndexPage.matches_dueDate now (TaskFilters.f_dueDate filters) t = true))
  /\ IndexPage.filteredTasks now tasks "" TaskFilters.clearFilters = tasks.
Proof.
  split.
  - intros t. unfold IndexPage.filteredTasks.
    destruct (String.eqb_spec (TaskFilters.f_status filters) "all") as [Es | Es];
      destruct (String.eqb_spec (TaskFilters.f_priority filters) "all") as [Ep | Ep];
      destruct (String.eqb_spec (TaskFilters.f_dueDate filters) "all") as [Ed | Ed];
      rewrite ?filter_In; cbv beta; rewrite ?String.eqb_eq; tauto.
  - unfold IndexPage.filteredTasks. simpl.
    apply filter_all_kept. intros t _. unfold IndexPage.matches_search. simpl.
    now rewrite str_includes_empty.
Qed.

(** X25. The due-date filters overlap on the day itself.  A task with a due
    date that shows under 'upcoming' shows neither under 'today' nor under
    'overdue'; but a task due today that is not completed shows under
    'overdue' as well, from the first millisecond after midnight UTC. *)
Theorem due_today_counts_as_overdue (now : Z) (task : Task) (d : DATE) :
  t_due_date (task_row task) = Some d ->
  (IndexPage.matches_dueDate now "upcoming" task = true ->
   IndexPage.matches_dueDate now "today" task = false
   /\ IndexPage.matches_dueDate now "overdue" task = false)
  /\ (IndexPage.matches_dueDate now "today" task = true ->
      (now mod IndexPage.ms_per_day <> 0)%Z ->
      t_status (task_row task) <> "completed" ->
      IndexPage.matches_dueDate now "overdue" task = true).
Proof.
  intros Hd. unfold IndexPage.matches_dueDate. rewrite Hd. simpl.
  unfold IndexPage.date_ms, IndexPage.ms_per_day. split.
  - intros H. apply Z.ltb_lt in H. split.
    + apply Z.eqb_neq. intros Heq.
      assert (now / 86400000 < Z.of_nat d)%Z
        by (apply Z.div_lt_upper_bound; lia).
      lia.
    + replace (Z.of_nat d * 86400000 <? now)%Z with false; [reflexivity|].
      symmetry. apply Z.ltb_ge. lia.
  - intros H Hmod Hst. apply Z.eqb_eq in H.
    apply andb_true_iff. split.
    + apply Z.ltb_lt. rewrite H.
      pose proof (Z.div_mod now 86400000 ltac:(lia)) as Hdm.
      pose proof (Z.mod_pos_bound now 86400000 ltac:(lia)) as Hb.
      lia.
    + apply negb_true_iff. now apply String.eqb_neq.
Qed.

Lemma due_today_counts_as_overdue_witness :
  IndexPage.matches_dueDate 86400001
    "overdue" (mk_Task (mk_task 10 1 "x" None (Some 1) "high" "pending") None []) = true.
Proof.
  apply (proj2 (due_today_counts_as_overdue 86400001
                  (mk_Task (mk_task 10 1 "x" None (Some 1) "high" "pending") None [])
                  1 eq_refl)).
  - reflexivity.
  - unfold IndexPage.ms_per_day. intros H. vm_compute in H. discriminate.
  - simpl. discriminate.
Defined.

(** X26. The badge of the filter menu counts the filters that are not
    'all': it shows nothing (the count is 0) exactly when all three filters
    are 'all', which is the state clearFilters sets, and it never exceeds
    three. *)
Theorem activeFiltersCount_zero_iff_cleared (filters : TaskFilters.Filters) :
  (TaskFilters.activeFiltersCount filters = 0 <-> filters = TaskFilters.clearFilters)
  /\ TaskFilters.activeFiltersCount filters <= 3.
Proof.
  unfold TaskFilters.activeFiltersCount, TaskFilters.clearFilters.
  destruct filters as [s p d]. simpl.
  destruct (String.eqb_spec s "all") as [Es | Es];
    destruct (String.eqb_spec p "all") as [Ep | Ep];
    destruct (String.eqb_spec d "all") as [Ed | Ed]; simpl;
    (split; [split; [try discriminate; intros _; congruence
                    | intros [= -> -> ->]; try reflexivity; congruence]
            | lia]).
Qed.

(* ================================================================== *)
(** ** The refresh after a successful call                              *)
(* ================================================================== *)

Lemma state_after_success (user : option UUID) (net : Net) (db : Database)
      (st : State) (m : mutation) :
  reports_success (out_toasts (run user net db st m)) = true ->
  out_state (run user net db st m)
  = fst (fetchTasks user net (out_db (run user net db st m)) st).
Proof.
  destruct m as [new_id taskData | taskId updates | taskId | new_id taskId email permission];
    simpl.
  - unfold createTask. destruct user as [u|]; [|discriminate].
    destruct (request (up_mutation net) _) as [[db' row]|]; [|discriminate].
    intros _. destruct (fetchTasks (Some u) net db' st) eqn:E. simpl. now rewrite E.
  - unfold updateTask.
    destruct (request (up_mutation net) _) as [db'|]; [|discriminate].
    intros _. destruct (fetchTasks user net db' st) eqn:E. simpl. now rewrite E.
  - unfold deleteTask.
    destruct (request (up_mutation net) _) as [db'|]; [|discriminate].
    intros _. destruct (fetchTasks user net db' st) eqn:E. simpl. now rewrite E.
  - unfold shareTask.
    destruct (request (up_profiles net) _) as [R|]; [|discriminate].
    destruct (request (up_mutation net) _) as [db'|]; [|discriminate].
    intros _. destruct (fetchTasks user net db' st) eqn:E. simpl. now rewrite E.
Qed.

(** X27. After a call of createTask, updateTask, deleteTask or shareTask
    that reports success, with both selects of the refresh answered, the list
    displayed to the signed-in caller is exactly what the caller may read in
    the database the call left: a created task is displayed at once, a
    deleted one is gone, and nothing the caller may not read is shown. *)
Theorem successful_call_refreshes_the_list
        (u : UUID) (net : Net) (db : Database) (st : State) (m : mutation) :
  reports_success (out_toasts (run (Some u) net db st m)) = true ->
  up_owned net = true -> up_shared net = true ->
  forall row : tasks_row,
    In row (map task_row (st_tasks (out_state (run (Some u) net db st m))))
    <-> In row (tasks (out_db (run (Some u) net db st m)))
        /\ tasks_select_policy (Some u) (out_db (run (Some u) net db st m)) row = true.
Proof.
  intros Hok Ho Hs row.
  rewrite (state_after_success (Some u) net db st m Hok).
  unfold fetchTasks, request. rewrite Ho, Hs. simpl.
  apply selects_return_readable_rows.
Qed.

Lemma successful_call_refreshes_the_list_witness :
  In (mk_task 10 Scenario.alice "Write report" None None "high" "pending")
     (map task_row
          (st_tasks (out_state
             (run (Some Scenario.alice) all_up Scenario.db_users initial_state
                  (CreateTask 10 (mk_task_data "Write report" None None
                                               "high" "pending")))))).
Proof.
  apply (successful_call_refreshes_the_list
           Scenario.alice all_up Scenario.db_users initial_state
           (CreateTask 10 (mk_task_data "Write report" None None "high" "pending"))
           eq_refl eq_refl eq_refl
           (mk_task 10 Scenario.alice "Write report" None None "high" "pending")).
  split; [simpl; now left | reflexivity].
Defined.

(* ================================================================== *)
(** ** Policies of profiles and task_shares                             *)
(* ================================================================== *)

(** X28. A caller can insert a profile for the caller's own identity only,
    and only while that identity has none: an accepted insert_profile was
    issued by the identity the row is for, that identity is in auth.users,
    and no profile with its id existed. *)
Theorem insert_profile_only_for_self
        (auth_uid : option UUID) (db db' : Database) (id : UUID)
        (email full_name avatar_url : option string) :
  insert_profile auth_uid db id email full_name avatar_url = Ok db' ->
  auth_uid = Some id
  /\ In id (auth_users db)
  /\ has_profile db id = false
  /\ tasks db' = tasks db /\ task_shares db' = task_shares db.
Proof.
  unfold insert_profile, Users_can_insert_own_profile.
  destruct (uid_is auth_uid id) eqn:Ha; [|discriminate].
  apply uid_is_true in Ha. unfold profiles_insert_row.
  destruct email as [e|]; [|discriminate].
  destruct (has_profile db id) eqn:Hp; [discriminate|]. simpl.
  destruct (existsb (Nat.eqb id) (auth_users db)) eqn:Hau; [|discriminate].
  intros [= <-]. simpl. repeat split; auto.
  apply existsb_exists in Hau as (k & Hk & Heq). apply Nat.eqb_eq in Heq.
  now subst.
Qed.

Lemma insert_profile_only_for_self_witness :
  Some Scenario.bob = Some Scenario.bob
  /\ In Scenario.bob [Scenario.alice; Scenario.bob]
  /\ has_profile (mk_db [Scenario.alice; Scenario.bob]
                        [mk_profile Scenario.alice Scenario.alice_email None None]
                        [] []) Scenario.bob = false
  /\ tasks Scenario.db_users = []
  /\ task_shares Scenario.db_users = [].
Proof.
  apply (insert_profile_only_for_self
           (Some Scenario.bob)
           (mk_db [Scenario.alice; Scenario.bob]
                  [mk_profile Scenario.alice Scenario.alice_email None None] [] [])
           Scenario.db_users Scenario.bob (Some Scenario.bob_email) None None).
  reflexivity.
Defined.

(** X29. The DELETE policy of task_shares allows exactly the owner of the
    shared task: the caller passes it on a share if and only if the caller is
    an authenticated identity that owns a task with the share's task_id.
    Neither the recipient nor a grantor who is not the owner can revoke. *)
Theorem share_delete_iff_task_owner
        (auth_uid : option UUID) (db : Database) (s : task_shares_row) :
  Users_can_delete_shares_for_their_own_tasks auth_uid db s = true <->
  exists U t, auth_uid = Some U /\ In t (tasks db)
              /\ t_id t = s_task_id s /\ t_user_id t = U.
Proof.
  unfold Users_can_delete_shares_for_their_own_tasks.
  rewrite existsb_exists. split.
  - intros (t & Hin & H). apply filter_In in Hin as [Hin _].
    apply andb_true_iff in H as [Hid Ho].
    apply Nat.eqb_eq in Hid. apply uid_is_true in Ho.
    exists (t_user_id t), t. auto.
  - intros (U & t & -> & Hin & Hid & Ho). exists t. split.
    + apply filter_In. split; [assumption|].
      unfold tasks_select_policy, Users_can_view_own_tasks. simpl.
      now rewrite Ho, Nat.eqb_refl.
    + simpl. now rewrite Hid, Ho, !Nat.eqb_refl.
Qed.
